(** * pubsub_triggered_dags: the Cloud Function of [main.py]

    A shallow embedding of [main.py]: the Pub/Sub push handler [trigger_dag],
    its dedup check [message_id_exists], the session helper [session_scope]
    and the Identity-Aware-Proxy client [make_iap_request].

    The Python code is a straight line of calls to the outside world (the
    process environment, Postgres through SQLAlchemy, Google's token
    service, HTTP).  Every such call is a constructor of [Call]; a function
    of the source is a program of the free monad [Prog] over these calls.
    Two interpreters give the programs their meaning:
    - [exec] runs one invocation alone against a [World];
    - [Pool.crun] interleaves several invocations over one shared table,
      with the table lock of Postgres in between.                          *)

From Stdlib Require Import String Ascii List ZArith Bool Lia.
From ExtLib Require Import Structures.Monad Structures.MonadExc.
Import ListNotations.
Import MonadNotation.
Local Open Scope string_scope.
Local Open Scope Z_scope.
Local Open Scope monad_scope.
Local Set Warnings "-register-all".

(** ** Python strings *)

Module PyStr.

(** [str.lower] on one character.  Only ASCII letters change; this is all
    the comparison with ["false"] can observe. *)
Definition lower_ascii (c : ascii) : ascii :=
  let n := nat_of_ascii c in
  if andb (Nat.leb 65 n) (Nat.leb n 90) then ascii_of_nat (n + 32) else c.

Fixpoint lower (s : string) : string :=
  match s with
  | EmptyString => EmptyString
  | String c s' => String (lower_ascii c) (lower s')
  end.

Definition len (s : string) : Z := Z.of_nat (String.length s).

(** [s.find(sub)], counted from offset [i]: the lowest index, or -1. *)
Fixpoint find_from (sub s : string) (i : Z) : Z :=
  if String.prefix sub s then i
  else match s with
       | EmptyString => -1
       | String _ s' => find_from sub s' (i + 1)
       end.

Definition find (s sub : string) : Z := find_from sub s 0.

(** [s.rfind(sub)], counted from offset [i]: the highest index, or -1. *)
Fixpoint rfind_from (sub s : string) (i : Z) : Z :=
  match s with
  | EmptyString => if String.prefix sub s then i else -1
  | String _ s' =>
      let r := rfind_from sub s' (i + 1) in
      if 0 <=? r then r else if String.prefix sub s then i else -1
  end.

Definition rfind (s sub : string) : Z := rfind_from sub s 0.

(** A slice bound as Python normalises it: negative bounds count from
    the end, and both are clamped to the string. *)
Definition clamp (s : string) (i : Z) : Z :=
  if i <? 0 then Z.max (i + len s) 0 else Z.min i (len s).

(** [s[start:stop]] *)
Definition slice (s : string) (start stop : Z) : string :=
  let a := clamp s start in
  let b := clamp s stop in
  if a <? b then String.substring (Z.to_nat a) (Z.to_nat (b - a)) s
  else EmptyString.

(** [sub in s] for two strings *)
Definition contains (s sub : string) : bool := 0 <=? find s sub.

(** [f"{x}"] for a value that is a string or [None] *)
Definition of_option (o : option string) : string :=
  match o with Some s => s | None => "None" end.

(** ["\x00" in s]: the string holds the character U+0000. *)
Fixpoint has_nul (s : string) : bool :=
  match s with
  | EmptyString => false
  | String c s' => Ascii.eqb c Ascii.zero || has_nul s'
  end.

End PyStr.

(** ** JSON values, as [request.get_json] hands them to Python

    Objects are Python dicts: every key is listed once.  Numbers are kept
    as integers; the handler only ever tests them for truth.  A string
    stands for a Python [str] character by character. *)

Inductive json : Type :=
| JNull
| JBool (b : bool)
| JNum (n : Z)
| JStr (s : string)
| JArr (items : list json)
| JObj (members : list (string * json)).

Module Py.

(** [bool(v)]: [None], [False], [0], [""], [[]] and [{}] are false. *)
Definition truthy (v : json) : bool :=
  match v with
  | JNull => false
  | JBool b => b
  | JNum n => negb (n =? 0)
  | JStr s => negb (String.eqb s "")
  | JArr items => match items with [] => false | _ => true end
  | JObj members => match members with [] => false | _ => true end
  end.

(** [v == s] for a string literal [s] *)
Definition eq_str (v : json) (s : string) : bool :=
  match v with
  | JStr t => String.eqb t s
  | _ => false
  end.

(** [d.get(key)] on the members of a dict *)
Fixpoint lookup (members : list (string * json)) (key : string) : option json :=
  match members with
  | [] => None
  | (k, v) :: rest => if String.eqb k key then Some v else lookup rest key
  end.

End Py.

(** ** Formatted text

    [f"..."] and [str.format] are kept as the template with its arguments,
    so that no [str()] or [repr()] of a Python object has to be spelled out. *)

Inductive pyval : Type :=
| PJson (v : json)
| PInt (n : Z)
| PStr (s : string)
| PHeaders (h : list (string * string)).

Inductive frag : Type :=
| Lit (s : string)          (* literal text *)
| Fmt (v : pyval)           (* [{v}] *)
| FmtRepr (v : pyval).      (* [{v!r}] *)

Definition text := list frag.

(** ** Exceptions *)

Inductive exn : Type :=
| AttributeError (msg : string)
| KeyError (key : string)
| TypeError (msg : string)
| OperationalError (pgcode : option string)   (* sqlalchemy.exc; [e.orig.pgcode] *)
| IntegrityError
| ProgrammingError
| Exception (msg : text)                      (* [raise Exception(...)] *)
| OtherError (name : string)                  (* anything else the outside raises *)
| ValueError (msg : string).

(** ** The tables and messages of the program *)

(** [class PubSubHistory(Base)] *)
Record PubSubHistory : Type := mkPubSubHistory {
  id : Z;                  (* primary key, autoincrement *)
  message_id : string;     (* Text, nullable=False *)
  timestamp : Z            (* server_default=func.now() *)
}.

(** [flask.Response(body, status=...)] *)
Record Response : Type := mkResponse {
  body : text;
  status : Z
}.

(** The incoming [flask.Request]: what [request.get_json(silent=True)]
    evaluates to, [None] ([JNull]) when the body is no JSON. *)
Record Request : Type := mkRequest {
  get_json_silent : json
}.

(** An outgoing call of [requests.request] *)
Record HttpRequest : Type := mkHttpRequest {
  http_method : string;
  http_url : string;
  http_headers : list (string * string);
  http_timeout : Z;
  http_json : option json
}.

Record HttpResponse : Type := mkHttpResponse {
  status_code : Z;
  headers : list (string * string);
  resp_text : string
}.

(** The keyword arguments [make_iap_request] is called with *)
Record Kwargs : Type := mkKwargs {
  kw_timeout : option Z;
  kw_json : option json
}.

(** Module-level constants, read from the environment at import time *)
Record Globals : Type := mkGlobals {
  IAP_TIMEOUT : Z;
  DAG_NAME : option string
}.

(** ** Python's dynamic operations on a JSON value

    Each returns [inl e] where Python raises [e]. *)

Module PyOp.

(** [key in v] *)
Definition contains (v : json) (key : string) : exn + bool :=
  match v with
  | JObj members =>
      inr (match Py.lookup members key with Some _ => true | None => false end)
  | JArr items => inr (existsb (fun x => Py.eq_str x key) items)
  | JStr s => inr (PyStr.contains s key)
  | JNum _ => inl (TypeError "argument of type 'int' is not iterable")
  | JBool _ => inl (TypeError "argument of type 'bool' is not iterable")
  | JNull => inl (TypeError "argument of type 'NoneType' is not iterable")
  end.

(** [v[key]] *)
Definition getitem (v : json) (key : string) : exn + json :=
  match v with
  | JObj members =>
      match Py.lookup members key with
      | Some x => inr x
      | None => inl (KeyError key)
      end
  | JArr _ => inl (TypeError "list indices must be integers or slices, not str")
  | JStr _ => inl (TypeError "string indices must be integers")
  | JNum _ => inl (TypeError "'int' object is not subscriptable")
  | JBool _ => inl (TypeError "'bool' object is not subscriptable")
  | JNull => inl (TypeError "'NoneType' object is not subscriptable")
  end.

(** [v.get(key, default)] *)
Definition get_default (v : json) (key : string) (default : json) : exn + json :=
  match v with
  | JObj members =>
      inr (match Py.lookup members key with Some x => x | None => default end)
  | JArr _ => inl (AttributeError "'list' object has no attribute 'get'")
  | JStr _ => inl (AttributeError "'str' object has no attribute 'get'")
  | JNum _ => inl (AttributeError "'int' object has no attribute 'get'")
  | JBool _ => inl (AttributeError "'bool' object has no attribute 'get'")
  | JNull => inl (AttributeError "'NoneType' object has no attribute 'get'")
  end.

(** [v.get(key) == s] *)
Definition get_equals (v : json) (key s : string) : exn + bool :=
  match get_default v key JNull with
  | inr x => inr (Py.eq_str x s)
  | inl e => inl e
  end.

End PyOp.

(** ** Calls to the outside world

    Logging is left out: it writes to the log stream and nothing reads it. *)

Inductive Call : Type :=
| EnvironGet (key : string)          (* [os.environ.get(key)] *)
| RequestGetJson (request : Request) (* [request.get_json(silent=True)] *)
| GetEngine                          (* [get_engine()]: secrets, engine, create_all *)
| QueryCount (mid : json)            (* [query(PubSubHistory).filter(message_id == mid).count()] *)
| LockTableNowait                    (* [LOCK TABLE pubsub_history IN ACCESS EXCLUSIVE MODE NOWAIT] *)
| Commit (pending : list json)       (* [session.commit()], flushing the rows added before *)
| Rollback                           (* [session.rollback()] *)
| Close                              (* [session.close()] *)
| ComposerAirflowUri                 (* [get_airflow_uri()]: the Composer API's airflowUri *)
| RedirectClientId (uri : string)    (* the redirect probe and its [client_id] parameter *)
| FetchIdToken (client_id : string)  (* [id_token.fetch_id_token(Request(), client_id)] *)
| RequestsRequest (r : HttpRequest). (* [requests.request(method, url, headers=..., **kwargs)] *)

(** What a call returns when it does not raise *)
Definition ret_type (c : Call) : Type :=
  match c with
  | EnvironGet _ => option string
  | RequestGetJson _ => json
  | GetEngine => unit
  | QueryCount _ => Z
  | LockTableNowait => unit
  | Commit _ => unit
  | Rollback => unit
  | Close => unit
  | ComposerAirflowUri => string
  | RedirectClientId _ => string
  | FetchIdToken _ => string
  | RequestsRequest _ => HttpResponse
  end.

(** ** Programs: a free monad over [Call] with exceptions *)

Inductive Prog (A : Type) : Type :=
| Ret (a : A)
| Raise (e : exn)
| Vis (c : Call) (k : exn + ret_type c -> Prog A).

Arguments Ret {A} a.
Arguments Raise {A} e.
Arguments Vis {A} c k.

Fixpoint bind_prog {A B : Type} (p : Prog A) (f : A -> Prog B) : Prog B :=
  match p with
  | Ret a => f a
  | Raise e => Raise e
  | Vis c k => Vis c (fun o => bind_prog (k o) f)
  end.

(** [try: p  except Exception as e: h e] *)
Fixpoint try_except {A : Type} (p : Prog A) (h : exn -> Prog A) : Prog A :=
  match p with
  | Ret a => Ret a
  | Raise e => h e
  | Vis c k => Vis c (fun o => try_except (k o) h)
  end.

(** [try: p  finally: q] *)
Fixpoint try_finally {A : Type} (p : Prog A) (q : Prog unit) : Prog A :=
  match p with
  | Ret a => bind_prog q (fun _ => Ret a)
  | Raise e => bind_prog q (fun _ => Raise e)
  | Vis c k => Vis c (fun o => try_finally (k o) q)
  end.

#[global] Instance Monad_Prog : Monad Prog :=
  {| ret := @Ret; bind := @bind_prog |}.

#[global] Instance Exc_Prog : MonadExc exn Prog :=
  {| raise := @Raise; catch := @try_except |}.

(** Perform one call; an exception of the call is raised in the program. *)
Definition call (c : Call) : Prog (ret_type c) :=
  Vis c (fun o => match o with inl e => Raise e | inr r => Ret r end).

(** Lift the result of a dynamic Python operation. *)
Definition lift {A : Type} (r : exn + A) : Prog A :=
  match r with inl e => Raise e | inr a => Ret a end.

(** ** The functions of [main.py] *)

(** [get_airflow_uri()] *)
Definition get_airflow_uri : Prog string := call ComposerAirflowUri.

(** [get_airflow_webserver_id()]: the part of the URI between ["https://"]
    and the last [".appspot.com"], cut out with [find], [rfind] and a slice. *)
Definition webserver_id_of (airflow_uri : string) : string :=
  PyStr.slice airflow_uri
    (PyStr.find airflow_uri "https://" + PyStr.len "https://")
    (PyStr.rfind airflow_uri ".appspot.com").

Definition get_airflow_webserver_id : Prog string :=
  airflow_uri <- get_airflow_uri ;;
  ret (webserver_id_of airflow_uri).

(** [get_client_id()] *)
Definition get_client_id : Prog string :=
  airflow_uri <- get_airflow_uri ;;
  call (RedirectClientId airflow_uri).

Definition forbidden_msg : text :=
  [Lit "Service account does not have permission to access the IAP-protected application."].

Definition bad_response_msg (resp : HttpResponse) : text :=
  [Lit "Bad response from application: "; FmtRepr (PInt (status_code resp));
   Lit " / "; FmtRepr (PHeaders (headers resp));
   Lit " / "; FmtRepr (PStr (resp_text resp))].

(** [make_iap_request(url, client_id, method, **kwargs)] *)
Definition make_iap_request (url client_id method : string) (kwargs : Kwargs)
  : Prog string :=
  let timeout := match kw_timeout kwargs with Some t => t | None => 90 end in
  google_open_id_connect_token <- call (FetchIdToken client_id) ;;
  resp <- call (RequestsRequest
                  (mkHttpRequest method url
                     [("Authorization", "Bearer " ++ google_open_id_connect_token)]
                     timeout (kw_json kwargs))) ;;
  if status_code resp =? 403 then raise (Exception forbidden_msg)
  else if negb (status_code resp =? 200) then raise (Exception (bad_response_msg resp))
  else ret (resp_text resp).

(** [with session_scope() as session: body]: the engine is built, the body
    runs, then commit; on any exception rollback and re-raise; close in
    every case. *)
Definition session_scope {A : Type} (body : Prog A) : Prog A :=
  call GetEngine ;;
  try_finally
    (catch (x <- body ;; call (Commit []) ;; ret x)
           (fun e => call Rollback ;; raise e))
    (call Close).

(** [message_id_exists(message_id)] *)
Definition message_id_exists (mid : json) : Prog bool :=
  message_id_count <- session_scope (call (QueryCount mid)) ;;
  ret (if 0 <? message_id_count then true else false).

Definition disabled_response : Response :=
  mkResponse [Lit "Cloud function is disabled, because it's a tea pot."] 418.

Definition malformed_response : Response :=
  mkResponse [Lit "Error - Malformed Event Notification"] 500.

Definition already_processed_response (mid : json) : Response :=
  mkResponse [Lit "The message for messageId "; Fmt (PJson mid);
              Lit " has already been processed."] 200.

(** Lines 266-274 of [trigger_dag]: the test
    [request_json and 'message' in request_json] and the two branches.
    [inl] is the early return of the [else] branch. *)
Definition parse_notification (request_json : json)
  : Prog (Response + json * json) :=
  has_message <-
    (if Py.truthy request_json
     then lift (PyOp.contains request_json "message")
     else ret false) ;;
  if has_message : bool then
    message <- lift (PyOp.getitem request_json "message") ;;
    mid <- lift (PyOp.getitem message "messageId") ;;
    attributes <- lift (PyOp.get_default message "attributes" (JObj [])) ;;
    ret (inr (mid, attributes))
  else ret (inl malformed_response).

(** Lines 310-314: the three attribute tests, joined by [and]. *)
Definition attributes_match (attributes : json) : exn + bool :=
  match PyOp.get_equals attributes "data_type" "sales_data" with
  | inl e => inl e
  | inr false => inr false
  | inr true =>
      match PyOp.get_equals attributes "process" "cleaning" with
      | inl e => inl e
      | inr false => inr false
      | inr true => PyOp.get_equals attributes "status" "completed"
      end
  end.

Definition webserver_url (g : Globals) (webserver_id : string) : string :=
  "https://" ++ webserver_id ++ ".appspot.com/api/experimental/dags/"
  ++ PyStr.of_option (DAG_NAME g) ++ "/dag_runs".

(** Lines 283-302: a new session, the lock statement and its handler.
    [Some r] is the early return inside [except]. *)
Definition lock_pubsub_history (mid : json) : Prog (option Response) :=
  call GetEngine ;;
  catch (call LockTableNowait ;; ret None)
        (fun e =>
           match e with
           | OperationalError pgcode =>
               match pgcode with
               | Some code =>
                   if String.eqb code "55P03"
                   then call Rollback ;; ret (Some (already_processed_response mid))
                   else raise e
               | None => raise e
               end
           | _ => raise e
           end).

(** Lines 309-331: the filter and the POST to the DAG trigger API. *)
Definition trigger_if_matching (g : Globals) (mid attributes : json)
  : Prog (option Response) :=
  matching <- lift (attributes_match attributes) ;;
  if matching : bool then
    client_id <- get_client_id ;;
    webserver_id <- get_airflow_webserver_id ;;
    make_iap_request (webserver_url g webserver_id) client_id "POST"
      (mkKwargs (Some (IAP_TIMEOUT g)) (Some (JObj [("conf", mid)]))) ;;
    ret None
  else ret None.

(** Lines 283-331: what [trigger_dag] does once the dedup query found no
    row: lock, insert and commit, close, then filter and trigger. *)
Definition claim_and_trigger (g : Globals) (mid attributes : json)
  : Prog (option Response) :=
  locked <- lock_pubsub_history mid ;;
  match locked with
  | Some r => ret (Some r)
  | None =>
      call (Commit [mid]) ;;
      call Close ;;
      trigger_if_matching g mid attributes
  end.

(** [trigger_dag(request)].  The result is the returned [Response], or
    [None] where the function falls off its end. *)
Definition trigger_dag (g : Globals) (request : Request) : Prog (option Response) :=
  enabled <- call (EnvironGet "ENABLED") ;;
  match enabled with
  | None => raise (AttributeError "'NoneType' object has no attribute 'lower'")
  | Some v =>
      if String.eqb (PyStr.lower v) "false" then ret (Some disabled_response)
      else
        request_json <- call (RequestGetJson request) ;;
        parsed <- parse_notification request_json ;;
        match parsed with
        | inl r => ret (Some r)
        | inr (mid, attributes) =>
            seen <- message_id_exists mid ;;
            if seen : bool then ret (Some (already_processed_response mid))
            else claim_and_trigger g mid attributes
        end
  end.

(** ** The world one invocation runs against

    The committed rows of [pubsub_history] with the sequence behind [id],
    the process environment, and the answers of everything the program
    cannot decide itself: whether the engine comes up, whether the lock
    statement is granted, what the server does with a literal that is no
    text, what Composer, the token service and the IAP-protected web
    server reply. *)

Record World : Type := mkWorld {
  environ : list (string * string);
  pubsub_history : list PubSubHistory;
  id_seq : Z;
  db_now : Z;
  engine_fault : option exn;
  lock_attempt : option exn;
  typed_comparison : json -> exn;
  typed_assignment : json -> exn + string;
  airflow_uri : exn + string;
  redirect_client_id : string -> exn + string;
  tokens_issued : nat;
  issue_token : nat -> string -> exn + string;
  iap_reply : HttpRequest -> exn + HttpResponse
}.

Definition with_table (w : World) (rows : list PubSubHistory) (next : Z) : World :=
  mkWorld (environ w) rows next (db_now w) (engine_fault w) (lock_attempt w)
    (typed_comparison w) (typed_assignment w) (airflow_uri w) (redirect_client_id w) (tokens_issued w) (issue_token w)
    (iap_reply w).

Definition with_lock_attempt (w : World) (a : option exn) : World :=
  mkWorld (environ w) (pubsub_history w) (id_seq w) (db_now w) (engine_fault w) a
    (typed_comparison w) (typed_assignment w) (airflow_uri w) (redirect_client_id w) (tokens_issued w) (issue_token w)
    (iap_reply w).

Definition with_tokens_issued (w : World) (n : nat) : World :=
  mkWorld (environ w) (pubsub_history w) (id_seq w) (db_now w) (engine_fault w)
    (lock_attempt w) (typed_comparison w) (typed_assignment w)
    (airflow_uri w) (redirect_client_id w) n (issue_token w)
    (iap_reply w).

(** [os.environ.get] *)
Fixpoint environ_get (env : list (string * string)) (key : string) : option string :=
  match env with
  | [] => None
  | (k, v) :: rest => if String.eqb k key then Some v else environ_get rest key
  end.

(** Rows whose [message_id] is [m] *)
Definition rows_with (m : string) (rows : list PubSubHistory) : list PubSubHistory :=
  filter (fun r => String.eqb (message_id r) m) rows.

Definition insert_row (m : string) (w : World) : World :=
  with_table w (pubsub_history w ++ [mkPubSubHistory (id_seq w) m (db_now w)])
    (id_seq w + 1).

(** *** A Python value bound to the [Text] column [message_id]

    SQLAlchemy hands the value to psycopg2 as it is, except [None], which
    it renders as [IS NULL] in a comparison and as NULL in an insert.
    psycopg2 (2.8) quotes a string, and refuses one that holds U+0000 with
    [ValueError] before anything is sent; it has no adapter for a dict; it
    writes numbers and booleans as literals of their own type; a list
    becomes an [ARRAY[...]] construct, except the empty list, sent as the
    quoted literal ['{}'], and a list of nothing but [None] or such lists,
    sent as the quoted literal ['{NULL,...}'].  The server reads a quoted
    literal as text. *)

Inductive sql_param : Type :=
| SqlText (t : string)      (* a quoted literal *)
| SqlNull
| SqlTyped.                 (* a number, a boolean or an [ARRAY[...]] construct *)

Fixpoint adapt (v : json) : exn + sql_param :=
  match v with
  | JNull => inr SqlNull
  | JBool _ | JNum _ => inr SqlTyped
  | JStr s =>
      if PyStr.has_nul s
      then inl (ValueError "A string literal cannot contain NUL (0x00) characters.")
      else inr (SqlText s)
  | JObj _ => inl ProgrammingError
  | JArr [] => inr (SqlText "{}")
  | JArr items =>
      (fix quote (items : list json) (nulls : option (list string))
         : exn + sql_param :=
         match items with
         | [] =>
             inr (match nulls with
                  | Some parts => SqlText ("{" ++ String.concat "," (rev parts) ++ "}")
                  | None => SqlTyped
                  end)
         | JNull :: rest => quote rest (option_map (cons "NULL") nulls)
         | JArr [] :: rest => quote rest None
         | (JArr _ as item) :: rest =>
             match adapt item with
             | inl e => inl e
             | inr (SqlText t) => quote rest (option_map (cons t) nulls)
             | inr _ => quote rest None
             end
         | item :: rest =>
             match adapt item with
             | inl e => inl e
             | inr _ => quote rest None
             end
         end) items (Some [])
  end.

(** The INSERTs of a commit.  The column is [Text, nullable=False]: a
    text is stored and NULL violates the constraint; what the server's
    assignment cast makes of a typed literal is the world's to say. *)
Fixpoint flush (pending : list json) (w : World) : exn + World :=
  match pending with
  | [] => inr w
  | v :: rest =>
      match adapt v with
      | inl e => inl e
      | inr (SqlText t) => flush rest (insert_row t w)
      | inr SqlNull => inl IntegrityError
      | inr SqlTyped =>
          match typed_assignment w v with
          | inl e => inl e
          | inr t => flush rest (insert_row t w)
          end
      end
  end.

(** The count of the dedup query.  No row satisfies [message_id IS NULL];
    the comparison of the text column with a typed literal is refused by
    the server, with the error the world names. *)
Definition count_rows (mid : json) (w : World) : exn + Z :=
  match adapt mid with
  | inl e => inl e
  | inr (SqlText t) => inr (Z.of_nat (length (rows_with t (pubsub_history w))))
  | inr SqlNull => inr 0
  | inr SqlTyped => inl (typed_comparison w mid)
  end.

Definition answer {A : Type} (fault : option exn) (a : A) : exn + A :=
  match fault with Some e => inl e | None => inr a end.

(** One call against the world: its result and the world after it. *)
Definition handle (c : Call) (w : World) : (exn + ret_type c) * World :=
  match c return (exn + ret_type c) * World with
  | EnvironGet key => (inr (environ_get (environ w) key), w)
  | RequestGetJson request => (inr (get_json_silent request), w)
  | GetEngine => (answer (engine_fault w) tt, w)
  | QueryCount mid => (count_rows mid w, w)
  | LockTableNowait => (answer (lock_attempt w) tt, w)
  | Commit pending =>
      match flush pending w with
      | inr w' => (inr tt, w')
      | inl e => (inl e, w)
      end
  | Rollback => (inr tt, w)
  | Close => (inr tt, w)
  | ComposerAirflowUri => (airflow_uri w, w)
  | RedirectClientId uri => (redirect_client_id w uri, w)
  | FetchIdToken client_id =>
      (issue_token w (tokens_issued w) client_id,
       with_tokens_issued w (S (tokens_issued w)))
  | RequestsRequest r => (iap_reply w r, w)
  end.

Inductive Outcome (A : Type) : Type :=
| Returned (a : A)
| Raised (e : exn).

Arguments Returned {A} a.
Arguments Raised {A} e.

(** A call as it shows in the trace, with the exception it raised if any *)
Definition Event : Type := Call * option exn.

Definition event_of (c : Call) (o : exn + ret_type c) : Event :=
  (c, match o with inl e => Some e | inr _ => None end).

Record Run (A : Type) : Type := mkRun {
  outcome : Outcome A;
  final : World;
  trace : list Event
}.

Arguments mkRun {A} _ _ _.
Arguments outcome {A} _.
Arguments final {A} _.
Arguments trace {A} _.

(** Run a program to its end. *)
Fixpoint exec {A : Type} (p : Prog A) (w : World) : Run A :=
  match p with
  | Ret a => mkRun (Returned a) w []
  | Raise e => mkRun (Raised e) w []
  | Vis c k =>
      let o := fst (handle c w) in
      let r := exec (k o) (snd (handle c w)) in
      mkRun (outcome r) (final r) (event_of c o :: trace r)
  end.

(** *** What the trace shows *)

Definition is_insert (ev : Event) : bool :=
  match ev with
  | (Commit (_ :: _), None) => true
  | _ => false
  end.

Definition is_check (ev : Event) : bool :=
  match ev with
  | (QueryCount _, _) => true
  | _ => false
  end.

Definition is_lock (ev : Event) : bool :=
  match ev with
  | (LockTableNowait, _) => true
  | _ => false
  end.

Definition is_lock_granted (ev : Event) : bool :=
  match ev with
  | (LockTableNowait, None) => true
  | _ => false
  end.

(** Any statement sent to the dedup store *)
Definition is_datastore (ev : Event) : bool :=
  match ev with
  | (GetEngine, _) | (QueryCount _, _) | (LockTableNowait, _)
  | (Commit _, _) | (Rollback, _) | (Close, _) => true
  | _ => false
  end.

(** A call towards the DAG trigger API: the token fetch or the request *)
Definition is_downstream (ev : Event) : bool :=
  match ev with
  | (ComposerAirflowUri, _) | (RedirectClientId _, _)
  | (FetchIdToken _, _) | (RequestsRequest _, _) => true
  | _ => false
  end.

Definition is_http_request (ev : Event) : bool :=
  match ev with
  | (RequestsRequest _, _) => true
  | _ => false
  end.

Definition is_parse (ev : Event) : bool :=
  match ev with
  | (RequestGetJson _, _) => true
  | _ => false
  end.

(** A run of [p] followed by the run of [f] on its result: what [exec]
    makes of [x <- p ;; f x]. *)
Definition then_run {A B : Type} (r : Run A) (f : A -> Prog B) : Run B :=
  match outcome r with
  | Returned a =>
      let r2 := exec (f a) (final r) in
      mkRun (outcome r2) (final r2) (trace r ++ trace r2)%list
  | Raised e => mkRun (Raised e) (final r) (trace r)
  end.

(** The run [r] with the events [evs] in front of its trace *)
Definition after_events {A : Type} (evs : list Event) (r : Run A) : Run A :=
  mkRun (outcome r) (final r) (evs ++ trace r)%list.

(** *** Preconditions on a delivery *)

(** The [ENABLED] variable is set and does not read ["false"]. *)
Definition enabled (w : World) : Prop :=
  exists v, environ_get (environ w) "ENABLED" = Some v
            /\ String.eqb (PyStr.lower v) "false" = false.

(** The request is a push envelope with [messageId] [m]; [attributes] is
    what line 271 binds: the [attributes] member, or [{}] without one. *)
Definition carries (request : Request) (m : string) (attributes : json) : Prop :=
  exists members msg,
    get_json_silent request = JObj members
    /\ Py.lookup members "message" = Some (JObj msg)
    /\ Py.lookup msg "messageId" = Some (JStr m)
    /\ attributes = match Py.lookup msg "attributes" with
                    | Some a => a
                    | None => JObj []
                    end.

(** *** The events of the steps of a delivery *)

(** [message_id_exists(m)] with the engine up *)
Definition precheck_events (m : string) : list Event :=
  [(GetEngine, None); (QueryCount (JStr m), None); (Commit [], None); (Close, None)].

(** [trigger_dag] up to and including the dedup query *)
Definition head_events (request : Request) (m : string) : list Event :=
  (EnvironGet "ENABLED", None) :: (RequestGetJson request, None)
  :: precheck_events m.

(** Lock granted, row inserted and committed, session closed *)
Definition claim_events (m : string) : list Event :=
  [(GetEngine, None); (LockTableNowait, None);
   (Commit [JStr m], None); (Close, None)].


(** The request [make_iap_request] sends once it holds [token] *)
Definition iap_request (url method token : string) (kwargs : Kwargs) : HttpRequest :=
  mkHttpRequest method url [("Authorization", "Bearer " ++ token)]
    (match kw_timeout kwargs with Some t => t | None => 90 end) (kw_json kwargs).

(** The POST of lines 325-331 for message [m] *)
Definition dag_run_request (g : Globals) (uri token m : string) : HttpRequest :=
  mkHttpRequest "POST"
    ("https://" ++ webserver_id_of uri ++ ".appspot.com/api/experimental/dags/"
     ++ PyStr.of_option (DAG_NAME g) ++ "/dag_runs")
    [("Authorization", "Bearer " ++ token)]
    (IAP_TIMEOUT g)
    (Some (JObj [("conf", JStr m)])).

(** [Frame P p]: whatever the world, [p] leaves the table as it is and
    every event of its run satisfies [P]. *)
Definition Frame {A : Type} (P : Event -> bool) (p : Prog A) : Prop :=
  forall w, pubsub_history (final (exec p w)) = pubsub_history w
            /\ forallb P (trace (exec p w)) = true.

(** *** The lock discipline, read off a trace *)

(** Statements that end the transaction, and with it the lock *)
Definition ends_transaction (ev : Event) : bool :=
  match ev with
  | (Commit _, _) | (Rollback, _) | (Close, _) => true
  | _ => false
  end.

(** Every event that satisfies [p] happens while the table lock is held:
    after a granted [LOCK] and no later than the statement that ends that
    transaction. *)
Fixpoint held_throughout (p : Event -> bool) (held : bool) (tr : list Event) : bool :=
  match tr with
  | [] => true
  | ev :: rest =>
      (if p ev then held else true)
      && held_throughout p
           (if is_lock_granted ev then true
            else if ends_transaction ev then false else held)
           rest
  end.

Definition is_check_or_insert (ev : Event) : bool := is_check ev || is_insert ev.

Definition is_quiet (ev : Event) : bool :=
  negb (is_lock ev) && negb (is_insert ev).

(** ** Concurrent invocations

    Several invocations run at once against one table.  A schedule names,
    step by step, the invocation that performs its next call.  Postgres
    decides the lock: [LOCK ... ACCESS EXCLUSIVE ... NOWAIT] fails with
    55P03 while another session holds the table or has read it in a
    transaction still open; while a session holds the lock every other
    statement on the table waits for it; locks go with the end of the
    transaction. *)

Module Pool.

Record Config : Type := mkConfig {
  shared : World;
  holder : option nat;          (* the session with the ACCESS EXCLUSIVE lock *)
  readers : list nat;           (* sessions whose open transaction read the table *)
  threads : list (Prog (option Response));
  log : list (nat * Event)
}.

Fixpoint set_nth {A : Type} (n : nat) (x : A) (l : list A) : list A :=
  match l, n with
  | [], _ => []
  | _ :: rest, O => x :: rest
  | y :: rest, S n' => y :: set_nth n' x rest
  end.

Definition held_by_other (h : option nat) (t : nat) : bool :=
  match h with
  | Some t' => negb (Nat.eqb t' t)
  | None => false
  end.

(** Some session other than [t] is in the list. *)
Definition others (t : nat) (sessions : list nat) : bool :=
  existsb (fun t' => negb (Nat.eqb t' t)) sessions.

Definition without (t : nat) (sessions : list nat) : list nat :=
  filter (fun t' => negb (Nat.eqb t' t)) sessions.

(** Statements that read or write the table wait for the lock. *)
Definition waits_for_lock (c : Call) : bool :=
  match c with
  | QueryCount _ => true
  | Commit (_ :: _) => true
  | _ => false
  end.

(** The lock statement as Postgres answers it to session [t] *)
Definition lock_answer (cfg : Config) (t : nat) : option exn :=
  if held_by_other (holder cfg) t || others t (readers cfg)
  then Some (OperationalError (Some "55P03"))
  else lock_attempt (shared cfg).

Definition finished {A : Type} (p : Prog A) : bool :=
  match p with
  | Vis _ _ => false
  | _ => true
  end.

(** The call is a lock statement that was granted. *)
Definition grants (c : Call) (o : exn + ret_type c) : bool :=
  is_lock_granted (event_of c o).

(** The call is a query of the table that went through. *)
Definition reads (c : Call) (o : exn + ret_type c) : bool :=
  match event_of c o with
  | (QueryCount _, None) => true
  | _ => false
  end.

(** The call ends the transaction of its session: a commit that went
    through, a rollback, or the close of the session. *)
Definition releases (c : Call) (o : exn + ret_type c) : bool :=
  match event_of c o with
  | (Commit _, None) => true
  | (Rollback, _) => true
  | (Close, _) => true
  | _ => false
  end.

(** Who holds the lock after session [t] did call [c] with result [o]
    and goes on as [p].  A session that ends while it holds the lock
    gives it back with its connection. *)
Definition holder_after (h : option nat) (t : nat) (c : Call)
    (o : exn + ret_type c) (p : Prog (option Response)) : option nat :=
  let mine := match h with Some t' => Nat.eqb t' t | None => false end in
  if grants c o then Some t
  else if mine && (releases c o || finished p) then None
  else h.

(** The sessions with a read lock after the same step *)
Definition readers_after (rs : list nat) (t : nat) (c : Call)
    (o : exn + ret_type c) (p : Prog (option Response)) : list nat :=
  if releases c o || finished p then without t rs
  else if reads c o then t :: rs
  else rs.

(** One call of invocation [t]; [None] when it has finished or waits. *)
Definition cstep (t : nat) (cfg : Config) : option Config :=
  match nth_error (threads cfg) t with
  | Some (Vis c k) =>
      if waits_for_lock c && held_by_other (holder cfg) t then None
      else
        let w1 := with_lock_attempt (shared cfg) (lock_answer cfg t) in
        let o := fst (handle c w1) in
        let w2 := with_lock_attempt (snd (handle c w1)) (lock_attempt (shared cfg)) in
        Some (mkConfig w2
                (holder_after (holder cfg) t c o (k o))
                (readers_after (readers cfg) t c o (k o))
                (set_nth t (k o) (threads cfg))
                (log cfg ++ [(t, event_of c o)]))
  | _ => None
  end.

Fixpoint crun (schedule : list nat) (cfg : Config) : option Config :=
  match schedule with
  | [] => Some cfg
  | t :: rest =>
      match cstep t cfg with
      | Some cfg' => crun rest cfg'
      | None => None
      end
  end.

(** What a finished invocation ended with *)
Definition result_of {A : Type} (p : Prog A) : option (Outcome A) :=
  match p with
  | Ret a => Some (Returned a)
  | Raise e => Some (Raised e)
  | Vis _ _ => None
  end.

Definition start (w : World) (ps : list (Prog (option Response))) : Config :=
  mkConfig w None [] ps [].

End Pool.

(** ** Sample deliveries *)

Module Sample.

Definition globals : Globals := mkGlobals 90 (Some "my_dag").

Definition token_service (n : nat) (client_id : string) : exn + string :=
  inr (match n with O => "token-1" | S O => "token-2" | _ => "token-n" end).

(** An empty table, every service up, the function enabled *)
Definition world : World :=
  mkWorld [("ENABLED", "true")] [] 1 1000 None None
    (fun _ => ProgrammingError) (fun _ => inl ProgrammingError)
    (inr "https://bc5c0e43e23571a62-tp.appspot.com")
    (fun _ => inr "573384987581.apps.googleusercontent.com")
    0 token_service
    (fun _ => inr (mkHttpResponse 200 [] "ok")).

Definition envelope (m : string) (attributes : list (string * json)) : Request :=
  mkRequest
    (JObj [("message",
            JObj [("messageId", JStr m); ("attributes", JObj attributes)])]).

Definition sales_attributes : list (string * json) :=
  [("data_type", JStr "sales_data"); ("process", JStr "cleaning");
   ("status", JStr "completed")].

Definition other_attributes : list (string * json) :=
  [("data_type", JStr "sales_data"); ("process", JStr "cleaning");
   ("status", JStr "started")].

(** The scenario of the push subscription: message ["abc123"] *)
Definition delivery : Request := envelope "abc123" sales_attributes.

Definition filtered_delivery : Request := envelope "abc123" other_attributes.

(** [{"message": {}}]: an envelope without [messageId] *)
Definition no_message_id : Request := mkRequest (JObj [("message", JObj [])]).

Definition with_environ (w : World) (env : list (string * string)) : World :=
  mkWorld env (pubsub_history w) (id_seq w) (db_now w) (engine_fault w)
    (lock_attempt w) (typed_comparison w) (typed_assignment w) (airflow_uri w) (redirect_client_id w) (tokens_issued w)
    (issue_token w) (iap_reply w).

(** The same world with [ENABLED] unset *)
Definition world_unset : World := with_environ world [].

(** The same world while another session holds the table lock *)
Definition world_locked : World :=
  with_lock_attempt world (Some (OperationalError (Some "55P03"))).


End Sample.

(** *** Sequences of deliveries *)

(** The worlds [w] and [w'] differ at most in the table and in the count
    of tokens issued: the environment and the services are the same. *)
Definition same_services (w w' : World) : Prop :=
  environ w' = environ w
  /\ engine_fault w' = engine_fault w
  /\ lock_attempt w' = lock_attempt w
  /\ db_now w' = db_now w.

(** Deliveries handled one after the other, each by its own invocation
    of [trigger_dag]: the world after the last and the events of all. *)
Fixpoint deliver_all (g : Globals) (requests : list Request) (w : World)
  : World * list Event :=
  match requests with
  | [] => (w, [])
  | request :: rest =>
      let r := exec (trigger_dag g request) w in
      let '(w', events) := deliver_all g rest (final r) in
      (w', (trace r ++ events)%list)
  end.

(** A read of the Composer environment or the redirect probe *)
Definition is_resolver (ev : Event) : bool :=
  match ev with
  | (ComposerAirflowUri, _) | (RedirectClientId _, _) => true
  | _ => false
  end.

(** *** More sample worlds and deliveries *)

Module Scenario.

Definition with_services (w : World)
    (uri : exn + string) (tokens : nat -> string -> exn + string)
    (reply : HttpRequest -> exn + HttpResponse) : World :=
  mkWorld (environ w) (pubsub_history w) (id_seq w) (db_now w) (engine_fault w)
    (lock_attempt w) (typed_comparison w) (typed_assignment w)
    uri (redirect_client_id w) (tokens_issued w) tokens reply.

(** The web server refuses the service account. *)
Definition world_forbidden : World :=
  with_services Sample.world (airflow_uri Sample.world) Sample.token_service
    (fun _ => inr (mkHttpResponse 403 [("Content-Type", "text/html")] "Forbidden")).

(** The web server is down. *)
Definition world_unavailable : World :=
  with_services Sample.world (airflow_uri Sample.world) Sample.token_service
    (fun _ => inr (mkHttpResponse 503 [("Retry-After", "120")]
                     "Service Unavailable")).

(** The request times out. *)
Definition world_timeout : World :=
  with_services Sample.world (airflow_uri Sample.world) Sample.token_service
    (fun _ => inl (OtherError "Timeout")).

(** No identity token can be had. *)
Definition world_no_token : World :=
  with_services Sample.world (airflow_uri Sample.world)
    (fun _ _ => inl (OtherError "DefaultCredentialsError"))
    (iap_reply Sample.world).

(** The Composer API does not answer. *)
Definition world_no_composer : World :=
  with_services Sample.world (inl (OtherError "ConnectionError"))
    Sample.token_service (iap_reply Sample.world).


(** An envelope whose ["attributes"] is [null] *)
Definition null_attributes : Request :=
  mkRequest
    (JObj [("message", JObj [("messageId", JStr "abc123"); ("attributes", JNull)])]).



End Scenario.

(** * Reasoning about runs *)

#[local] Arguments adapt _ : simpl never.

Lemma adapt_plain m :
  PyStr.has_nul m = false -> adapt (JStr m) = inr (SqlText m).
Proof. intros H. unfold adapt. now rewrite H. Qed.

Section ExecLaws.

Context {A B : Type}.

Lemma exec_bind (p : Prog A) (f : A -> Prog B) (w : World) :
  exec (bind_prog p f) w = then_run (exec p w) f.
Proof.
  revert w. induction p as [a | e | c k IH]; intros w.
  - unfold then_run. simpl. destruct (exec (f a) w); reflexivity.
  - reflexivity.
  - simpl. rewrite IH. unfold then_run. simpl.
    destruct (outcome (exec (k (fst (handle c w))) (snd (handle c w))));
      reflexivity.
Qed.

End ExecLaws.

Lemma exec_bind' {A B : Type} (p : Prog A) (f : A -> Prog B) (w : World) :
  exec (bind p f) w = then_run (exec p w) f.
Proof. apply exec_bind. Qed.

Lemma exec_lift {A : Type} (x : exn + A) (w : World) :
  exec (lift x) w =
  mkRun (match x with inl e => Raised e | inr a => Returned a end) w [].
Proof. destruct x; reflexivity. Qed.

(** A commit that goes through has stored some text for its first row. *)
Lemma flush_cons v rest w w' :
  flush (v :: rest) w = inr w' ->
  exists t, flush rest (insert_row t w) = inr w'.
Proof.
  cbn [flush]. destruct (adapt v) as [e | [t | |]]; try discriminate.
  - intros H. now exists t.
  - destruct (typed_assignment w v) as [e | t]; [discriminate |].
    intros H. now exists t.
Qed.

(** No call removes or rewrites a committed row. *)
Lemma flush_extends pending :
  forall w w', flush pending w = inr w' ->
  exists added, pubsub_history w' = (pubsub_history w ++ added)%list.
Proof.
  induction pending as [| v rest IH]; intros w w' H.
  - inversion H; subst. exists []. now rewrite app_nil_r.
  - apply flush_cons in H as [t H].
    apply IH in H. destruct H as [added H].
    exists (mkPubSubHistory (id_seq w) t (db_now w) :: added).
    rewrite H. simpl. now rewrite <- app_assoc.
Qed.

Lemma handle_extends c w :
  exists added, pubsub_history (snd (handle c w)) = (pubsub_history w ++ added)%list.
Proof.
  destruct c; simpl; try (exists []; now rewrite app_nil_r).
  destruct (flush pending w) as [e | w'] eqn:E; simpl.
  - exists []. now rewrite app_nil_r.
  - eapply flush_extends; eauto.
Qed.

Lemma exec_extends {A : Type} (p : Prog A) :
  forall w, exists added,
    pubsub_history (final (exec p w)) = (pubsub_history w ++ added)%list.
Proof.
  induction p as [a | e | c k IH]; intros w; simpl;
    try (exists []; now rewrite app_nil_r).
  destruct (IH (fst (handle c w)) (snd (handle c w))) as [a2 H2].
  destruct (handle_extends c w) as [a1 H1].
  exists (a1 ++ a2)%list. rewrite H2, H1. now rewrite app_assoc.
Qed.

(** So the rows a run finds are still there when it ends. *)
Lemma exec_keeps_rows {A : Type} (p : Prog A) w :
  incl (pubsub_history w) (pubsub_history (final (exec p w))).
Proof.
  destruct (exec_extends p w) as [added ->]. apply incl_appl, incl_refl.
Qed.



(** ** The steps of one delivery *)

Lemma truthy_of_lookup members key v :
  Py.lookup members key = Some v -> Py.truthy (JObj members) = true.
Proof. destruct members; [discriminate | reflexivity]. Qed.

#[local] Arguments Py.lookup _ _ : simpl never.
#[local] Arguments Py.truthy _ : simpl never.
#[local] Arguments PyStr.lower _ : simpl never.
#[local] Arguments String.eqb _ _ : simpl never.

Lemma exec_parse_notification request m attributes w :
  carries request m attributes ->
  exec (parse_notification (get_json_silent request)) w
  = mkRun (Returned (inr (JStr m, attributes))) w [].
Proof.
  intros (members & msg & Hjson & Hmsg & Hid & Hattr).
  rewrite Hjson. unfold parse_notification.
  rewrite (truthy_of_lookup _ _ _ Hmsg).
  cbn. rewrite Hmsg. cbn. rewrite Hid. cbn. subst attributes.
  destruct (Py.lookup msg "attributes"); reflexivity.
Qed.


Lemma exec_message_id_exists m w :
  engine_fault w = None -> PyStr.has_nul m = false ->
  exec (message_id_exists (JStr m)) w
  = mkRun (Returned (0 <? Z.of_nat (length (rows_with m (pubsub_history w)))))
      w (precheck_events m).
Proof.
  intros He Hnul. unfold message_id_exists, session_scope. cbn. rewrite He. cbn.
  unfold count_rows. rewrite (adapt_plain _ Hnul). cbn.
  destruct (0 <? _); reflexivity.
Qed.


#[local] Arguments parse_notification _ : simpl never.
#[local] Arguments message_id_exists _ : simpl never.
#[local] Arguments claim_and_trigger _ _ _ : simpl never.
#[local] Arguments trigger_if_matching _ _ _ : simpl never.
#[local] Arguments lock_pubsub_history _ : simpl never.
#[local] Arguments make_iap_request _ _ _ _ : simpl never.


(** Up to the dedup query an enabled, well-formed delivery takes one path. *)
Lemma exec_trigger_dag_head g request m attributes w :
  enabled w -> carries request m attributes -> engine_fault w = None ->
  PyStr.has_nul m = false ->
  exec (trigger_dag g request) w
  = after_events (head_events request m)
      (if 0 <? Z.of_nat (length (rows_with m (pubsub_history w)))
       then mkRun (Returned (Some (already_processed_response (JStr m)))) w []
       else exec (claim_and_trigger g (JStr m) attributes) w).
Proof.
  intros (v & Hv & Hon) Hreq He Hnul.
  unfold trigger_dag. cbn. rewrite Hv. cbn. rewrite Hon. cbn.
  rewrite exec_bind, (exec_parse_notification _ _ _ _ Hreq).
  unfold then_run. cbn.
  rewrite exec_bind, (exec_message_id_exists _ _ He Hnul).
  unfold then_run, after_events. cbn.
  destruct (0 <? _); reflexivity.
Qed.



Lemma exec_lock_granted mid w :
  engine_fault w = None -> lock_attempt w = None ->
  exec (lock_pubsub_history mid) w
  = mkRun (Returned None) w [(GetEngine, None); (LockTableNowait, None)].
Proof.
  intros He Hl. unfold lock_pubsub_history. cbn. rewrite He. cbn.
  rewrite Hl. reflexivity.
Qed.




Lemma exec_claim_granted g m attributes w :
  engine_fault w = None -> lock_attempt w = None -> PyStr.has_nul m = false ->
  exec (claim_and_trigger g (JStr m) attributes) w
  = after_events (claim_events m)
      (exec (trigger_if_matching g (JStr m) attributes) (insert_row m w)).
Proof.
  intros He Hl Hnul. unfold claim_and_trigger.
  rewrite exec_bind', (exec_lock_granted _ _ He Hl).
  unfold then_run, after_events. cbn. rewrite (adapt_plain _ Hnul).
  reflexivity.
Qed.



(** *** The IAP request *)


Lemma exec_make_iap_request url client_id method kwargs w token :
  issue_token w (tokens_issued w) client_id = inr token ->
  exec (make_iap_request url client_id method kwargs) w
  = mkRun
      (match iap_reply w (iap_request url method token kwargs) with
       | inl e => Raised e
       | inr resp =>
           if status_code resp =? 403 then Raised (Exception forbidden_msg)
           else if status_code resp =? 200 then Returned (resp_text resp)
           else Raised (Exception (bad_response_msg resp))
       end)
      (with_tokens_issued w (S (tokens_issued w)))
      [(FetchIdToken client_id, None);
       (RequestsRequest (iap_request url method token kwargs),
        match iap_reply w (iap_request url method token kwargs) with
        | inl e => Some e
        | inr _ => None
        end)].
Proof.
  intros Ht. unfold make_iap_request, iap_request. cbn. rewrite Ht. cbn.
  destruct (iap_reply w _) as [e | resp]; cbn; [reflexivity |].
  destruct (status_code resp =? 403); [reflexivity |].
  destruct (status_code resp =? 200); reflexivity.
Qed.

(** *** Programs that leave the dedup store alone *)

Lemma Frame_ret {A : Type} P (a : A) : Frame P (Ret a).
Proof. intros w. split; reflexivity. Qed.

Lemma Frame_raise {A : Type} P e : Frame P (@Raise A e).
Proof. intros w. split; reflexivity. Qed.

Lemma Frame_lift {A : Type} P (x : exn + A) : Frame P (lift x).
Proof. destruct x; [apply Frame_raise | apply Frame_ret]. Qed.

Lemma Frame_bind {A B : Type} P (p : Prog A) (f : A -> Prog B) :
  Frame P p -> (forall a, Frame P (f a)) -> Frame P (bind_prog p f).
Proof.
  intros Hp Hf w. rewrite exec_bind. unfold then_run.
  destruct (Hp w) as [Ht Hev].
  destruct (outcome (exec p w)) as [a | e]; cbn.
  - destruct (Hf a (final (exec p w))) as [Ht2 Hev2].
    rewrite Ht2, Ht, forallb_app, Hev, Hev2. split; reflexivity.
  - split; assumption.
Qed.

Lemma Frame_call P (c : Call) :
  (forall o, P (c, o) = true) ->
  (forall w, pubsub_history (snd (handle c w)) = pubsub_history w) ->
  Frame P (call c).
Proof.
  intros HP Hw w. unfold call. cbn.
  destruct (fst (handle c w)) as [e | r]; unfold event_of; cbn;
    rewrite HP, Hw; split; reflexivity.
Qed.

Ltac frame :=
  repeat first
    [ apply Frame_ret | apply Frame_raise | apply Frame_lift
    | match goal with
      | |- Frame ?P (call ?c) =>
          apply (Frame_call P c);
          [intros [?|]; reflexivity | intros ?; reflexivity]
      end
    | apply Frame_bind; [| intros ?]
    | match goal with
      | |- Frame _ (if ?b then _ else _) => destruct b
      end ].

Lemma Frame_make_iap_request url client_id method kwargs :
  Frame is_downstream (make_iap_request url client_id method kwargs).
Proof.
  unfold make_iap_request. cbn [bind ret raise Monad_Prog Exc_Prog]. frame.
Qed.

Lemma Frame_get_client_id : Frame is_downstream get_client_id.
Proof.
  unfold get_client_id, get_airflow_uri. cbn [bind ret Monad_Prog]. frame.
Qed.

Lemma Frame_get_airflow_webserver_id :
  Frame is_downstream get_airflow_webserver_id.
Proof.
  unfold get_airflow_webserver_id, get_airflow_uri.
  cbn [bind ret Monad_Prog]. frame.
Qed.

(** The filter and the trigger leave the table alone and send nothing to
    the dedup store. *)
Lemma Frame_trigger_if_matching g mid attributes :
  Frame is_downstream (trigger_if_matching g mid attributes).
Proof.
  unfold trigger_if_matching. cbn [bind ret Monad_Prog].
  apply Frame_bind; [apply Frame_lift | intros [|]]; [| apply Frame_ret].
  apply Frame_bind; [apply Frame_get_client_id | intros cid].
  apply Frame_bind; [apply Frame_get_airflow_webserver_id | intros wid].
  apply Frame_bind; [apply Frame_make_iap_request | intros _; apply Frame_ret].
Qed.

(** [p ;; f] returns a [Response] only if [f] does. *)
Lemma outcome_bind_no_response {A : Type} (p : Prog A)
    (f : A -> Prog (option Response)) w resp :
  (forall a w', outcome (exec (f a) w') <> Returned (Some resp)) ->
  outcome (exec (bind_prog p f) w) <> Returned (Some resp).
Proof.
  intros Hf. rewrite exec_bind. unfold then_run.
  destruct (outcome (exec p w)) as [a | e]; cbn [outcome]; [apply Hf | congruence].
Qed.

(** The filter and the trigger never end in a [Response]. *)
Lemma trigger_if_matching_no_response g mid attributes w resp :
  outcome (exec (trigger_if_matching g mid attributes) w) <> Returned (Some resp).
Proof.
  unfold trigger_if_matching. cbn [bind ret Monad_Prog].
  apply outcome_bind_no_response. intros [|] w1; [| cbn; congruence].
  repeat (apply outcome_bind_no_response; intros ? ?).
  cbn. congruence.
Qed.


(** ** Lists of events *)

Lemma filter_none {A : Type} (P Q : A -> bool) (l : list A) :
  (forall x, P x = true -> Q x = false) ->
  forallb P l = true -> filter Q l = [].
Proof.
  intros HPQ. induction l as [| x l IH]; cbn; [reflexivity |].
  intros H. apply andb_prop in H as [Hx Hl].
  rewrite (HPQ x Hx). auto.
Qed.

Lemma downstream_not_insert ev : is_downstream ev = true -> is_insert ev = false.
Proof. destruct ev as [[] [e |]]; cbn; congruence. Qed.

Lemma downstream_not_datastore ev :
  is_downstream ev = true -> is_datastore ev = false.
Proof. destruct ev as [[] [e |]]; cbn; congruence. Qed.

Lemma rows_with_app m rows rows' :
  rows_with m (rows ++ rows') = (rows_with m rows ++ rows_with m rows')%list.
Proof. apply filter_app. Qed.


Lemma seen_iff_rows m rows :
  (0 <? Z.of_nat (length (rows_with m rows))) = true <-> rows_with m rows <> [].
Proof.
  destruct (rows_with m rows); cbn; split; congruence || reflexivity || lia.
Qed.

(** ** Redelivery: a delivery whose identifier has a row *)

Lemma redelivery_already_processed g request m attributes w :
  enabled w -> carries request m attributes -> engine_fault w = None ->
  rows_with m (pubsub_history w) <> [] -> PyStr.has_nul m = false ->
  exec (message_id_exists (JStr m)) w
  = mkRun (Returned true) w (precheck_events m)
  /\ exec (trigger_dag g request) w
     = mkRun (Returned (Some (already_processed_response (JStr m)))) w
         (head_events request m).
Proof.
  intros Hon Hreq He Hrows Hnul. apply seen_iff_rows in Hrows.
  rewrite (exec_trigger_dag_head _ _ _ _ _ Hon Hreq He Hnul),
    (exec_message_id_exists _ _ He Hnul), Hrows.
  split; reflexivity.
Qed.

(** A first delivery with the lock granted: the run up to the filter. *)
Lemma first_delivery_claims g request m attributes w :
  enabled w -> carries request m attributes -> engine_fault w = None ->
  lock_attempt w = None -> rows_with m (pubsub_history w) = [] ->
  PyStr.has_nul m = false ->
  exec (trigger_dag g request) w
  = after_events (head_events request m ++ claim_events m)
      (exec (trigger_if_matching g (JStr m) attributes) (insert_row m w)).
Proof.
  intros Hon Hreq He Hl Hrows Hnul.
  rewrite (exec_trigger_dag_head _ _ _ _ _ Hon Hreq He Hnul), Hrows.
  cbn [length Z.of_nat Z.ltb Z.compare].
  rewrite (exec_claim_granted _ _ _ _ He Hl Hnul). reflexivity.
Qed.

Lemma first_delivery_row g m attributes w :
  rows_with m (pubsub_history w) = [] ->
  rows_with m
    (pubsub_history
       (final (exec (trigger_if_matching g (JStr m) attributes) (insert_row m w))))
  = [mkPubSubHistory (id_seq w) m (db_now w)].
Proof.
  intros Hrows.
  rewrite (proj1 (Frame_trigger_if_matching g (JStr m) attributes (insert_row m w))).
  cbn [insert_row with_table pubsub_history].
  rewrite rows_with_app, Hrows. cbn.
  unfold String.eqb. fold String.eqb. now rewrite String.eqb_refl.
Qed.

(** ** Facts about [find], [rfind] and slices *)

Module PyStrFacts.

Lemma append_assoc (a b c : string) : ((a ++ b) ++ c = a ++ (b ++ c))%string.
Proof. induction a as [| x a IH]; cbn; [reflexivity | now rewrite IH]. Qed.

Lemma length_append (a b : string) :
  String.length (a ++ b) = (String.length a + String.length b)%nat.
Proof. induction a as [| x a IH]; cbn; [reflexivity | now rewrite IH]. Qed.

Lemma prefix_refl (s : string) : String.prefix s s = true.
Proof.
  induction s as [| x s IH]; cbn; [reflexivity |].
  destruct (ascii_dec x x); [exact IH | congruence].
Qed.

Lemma prefix_longer (sub s : string) :
  (String.length s < String.length sub)%nat -> String.prefix sub s = false.
Proof.
  revert sub. induction s as [| x s IH]; intros [| y sub] H; cbn in *;
    try lia; try reflexivity.
  destruct (ascii_dec y x); [apply IH; lia | reflexivity].
Qed.

(** No occurrence fits into a string shorter than the pattern. *)
Lemma rfind_from_short (sub s : string) i :
  (String.length s < String.length sub)%nat -> PyStr.rfind_from sub s i = -1.
Proof.
  revert i. induction s as [| x s IH]; intros i H.
  - cbn [PyStr.rfind_from]. now rewrite prefix_longer.
  - cbn [PyStr.rfind_from]. rewrite IH by (cbn in H; lia).
    change (0 <=? -1) with false. cbv iota. now rewrite prefix_longer.
Qed.

(** A string that ends in the pattern: the last occurrence is that end. *)
Lemma rfind_from_suffix (sub a : string) i :
  sub <> EmptyString -> 0 <= i ->
  PyStr.rfind_from sub (a ++ sub) i = i + PyStr.len a.
Proof.
  intros Hsub. revert i. induction a as [| x a IH]; intros i Hi.
  - cbn [append]. unfold PyStr.len. cbn [String.length Z.of_nat].
    destruct sub as [| y sub]; [congruence |].
    cbn [PyStr.rfind_from].
    rewrite rfind_from_short by (cbn; lia).
    change (0 <=? -1) with false. cbv iota.
    rewrite prefix_refl. lia.
  - cbn [append PyStr.rfind_from]. rewrite IH by lia.
    unfold PyStr.len. cbn [String.length]. rewrite Nat2Z.inj_succ.
    destruct (0 <=? _) eqn:E; [lia | apply Z.leb_gt in E; exfalso; lia].
Qed.

(** Without an occurrence [rfind] answers -1, as [find] does. *)
Lemma rfind_from_absent (sub s : string) i :
  0 <= i -> PyStr.find_from sub s i < 0 -> PyStr.rfind_from sub s i = -1.
Proof.
  revert i. induction s as [| x s IH]; intros i Hi H.
  - cbn [PyStr.find_from PyStr.rfind_from] in *.
    destruct (String.prefix sub ""); [lia | reflexivity].
  - cbn [PyStr.find_from] in H. cbn [PyStr.rfind_from].
    destruct (String.prefix sub (String x s)); [lia |].
    rewrite IH by (lia || assumption). reflexivity.
Qed.

Lemma substring_middle (a b c : string) :
  String.substring (String.length a) (String.length b) (a ++ b ++ c) = b.
Proof.
  induction a as [| x a IH]; cbn [append String.length String.substring].
  - induction b as [| y b IHb]; cbn.
    + destruct c; reflexivity.
    + now rewrite IHb.
  - exact IH.
Qed.

Lemma prefix_append (p x : string) : String.prefix p (p ++ x) = true.
Proof.
  induction p as [| c p IH]; cbn; [now destruct x |].
  destruct (ascii_dec c c); [exact IH | congruence].
Qed.

Lemma find_from_prefix (sub s : string) i :
  String.prefix sub s = true -> PyStr.find_from sub s i = i.
Proof. intros H. destruct s; cbn [PyStr.find_from]; now rewrite H. Qed.

Lemma substring_none (s : string) : String.substring 0 0 s = EmptyString.
Proof. destruct s; reflexivity. Qed.

Lemma length_zero (s : string) : String.length s = 0%nat -> s = EmptyString.
Proof. destruct s; [reflexivity | discriminate]. Qed.

End PyStrFacts.

(** The slice of line 89 on an address of the form
    [https://{id}.appspot.com] *)
Lemma webserver_id_of_appspot (wid : string) :
  webserver_id_of ("https://" ++ wid ++ ".appspot.com") = wid.
Proof.
  unfold webserver_id_of, PyStr.find, PyStr.rfind.
  rewrite (PyStrFacts.find_from_prefix _ _ _ (PyStrFacts.prefix_append _ _)).
  rewrite <- PyStrFacts.append_assoc.
  rewrite PyStrFacts.rfind_from_suffix by (discriminate || lia).
  rewrite PyStrFacts.append_assoc.
  unfold PyStr.slice, PyStr.clamp, PyStr.len.
  rewrite !PyStrFacts.length_append.
  change (String.length "https://") with 8%nat.
  change (String.length ".appspot.com") with 12%nat.
  set (n := String.length wid).
  assert (Hn : n = String.length wid) by reflexivity.
  destruct (Z.ltb_spec (0 + Z.of_nat 8) 0); [lia |].
  destruct (Z.ltb_spec (0 + Z.of_nat (8 + n)) 0); [lia |].
  rewrite !Z.min_l by lia.
  destruct (Z.ltb_spec (0 + Z.of_nat 8) (0 + Z.of_nat (8 + n))) as [Hlt | Hge].
  - replace (Z.to_nat (0 + Z.of_nat 8)) with (String.length "https://")
      by (cbn; lia).
    replace (Z.to_nat (0 + Z.of_nat (8 + n) - (0 + Z.of_nat 8))) with n by lia.
    rewrite Hn. apply PyStrFacts.substring_middle.
  - symmetry. apply PyStrFacts.length_zero. lia.
Qed.

(** * The claims *)



Lemma exec_get_client_id w uri cid :
  airflow_uri w = inr uri -> redirect_client_id w uri = inr cid ->
  exec get_client_id w
  = mkRun (Returned cid) w
      [(ComposerAirflowUri, None); (RedirectClientId uri, None)].
Proof.
  intros Huri Hcid. unfold get_client_id, get_airflow_uri. cbn.
  rewrite Huri. cbn. rewrite Hcid. reflexivity.
Qed.

Lemma exec_get_airflow_webserver_id w uri :
  airflow_uri w = inr uri ->
  exec get_airflow_webserver_id w
  = mkRun (Returned (webserver_id_of uri)) w [(ComposerAirflowUri, None)].
Proof.
  intros Huri. unfold get_airflow_webserver_id, get_airflow_uri. cbn.
  rewrite Huri. reflexivity.
Qed.

(** The trigger with every service answering: two reads of the Composer
    environment, the redirect probe, the token and one POST. *)
Lemma exec_trigger_matching g m attributes w uri cid token :
  attributes_match attributes = inr true ->
  airflow_uri w = inr uri -> redirect_client_id w uri = inr cid ->
  issue_token w (tokens_issued w) cid = inr token ->
  exists out o,
    exec (trigger_if_matching g (JStr m) attributes) w
    = mkRun out (with_tokens_issued w (S (tokens_issued w)))
        [(ComposerAirflowUri, None); (RedirectClientId uri, None);
         (ComposerAirflowUri, None); (FetchIdToken cid, None);
         (RequestsRequest (dag_run_request g uri token m), o)].
Proof.
  intros Hyes Huri Hcid Htok.
  unfold trigger_if_matching. cbn [bind ret Monad_Prog].
  rewrite exec_bind, exec_lift, Hyes. unfold then_run. cbn [outcome final trace].
  rewrite exec_bind, (exec_get_client_id _ _ _ Huri Hcid).
  unfold then_run. cbn [outcome final trace].
  rewrite exec_bind, (exec_get_airflow_webserver_id _ _ Huri).
  unfold then_run. cbn [outcome final trace].
  rewrite exec_bind, (exec_make_iap_request _ _ _ _ _ _ Htok).
  unfold then_run, iap_request, webserver_url, dag_run_request.
  cbn [kw_timeout kw_json outcome final trace].
  match goal with
  | |- context [iap_reply w ?rq] => destruct (iap_reply w rq) as [e | resp]
  end.
  - cbn. do 2 eexists. reflexivity.
  - destruct (status_code resp =? 403); [cbn; do 2 eexists; reflexivity |].
    destruct (status_code resp =? 200); cbn; do 2 eexists; reflexivity.
Qed.

(** C8. A first delivery of an identifier without U+0000 whose
    attributes pass the filter, with the Airflow web server at
    [https://{wid}.appspot.com] and [DAG_NAME] set to [dag], sends
    exactly one HTTP request: a POST to
    [https://{wid}.appspot.com/api/experimental/dags/{dag}/dag_runs] with
    JSON body [{"conf": message_id}], the timeout [IAP_TIMEOUT] and the
    header [Authorization: Bearer token], where [token] is the one the
    token service issues to this invocation, fetched right before the
    request. *)
Theorem matching_delivery_posts_once g request m attributes w wid dag cid token :
  enabled w -> carries request m attributes -> PyStr.has_nul m = false ->
  engine_fault w = None ->
  lock_attempt w = None -> rows_with m (pubsub_history w) = [] ->
  attributes_match attributes = inr true ->
  DAG_NAME g = Some dag ->
  airflow_uri w = inr ("https://" ++ wid ++ ".appspot.com") ->
  redirect_client_id w ("https://" ++ wid ++ ".appspot.com") = inr cid ->
  issue_token w (tokens_issued w) cid = inr token ->
  let r := exec (trigger_dag g request) w in
  let post :=
    mkHttpRequest "POST"
      ("https://" ++ wid ++ ".appspot.com/api/experimental/dags/" ++ dag
       ++ "/dag_runs")
      [("Authorization", "Bearer " ++ token)]
      (IAP_TIMEOUT g)
      (Some (JObj [("conf", JStr m)])) in
  exists o,
    trace r
    = [(EnvironGet "ENABLED", None); (RequestGetJson request, None);
       (GetEngine, None); (QueryCount (JStr m), None);
       (Commit [], None); (Close, None);
       (GetEngine, None); (LockTableNowait, None);
       (Commit [JStr m], None); (Close, None);
       (ComposerAirflowUri, None);
       (RedirectClientId ("https://" ++ wid ++ ".appspot.com"), None);
       (ComposerAirflowUri, None); (FetchIdToken cid, None);
       (RequestsRequest post, o)]
    /\ filter is_http_request (trace r) = [(RequestsRequest post, o)]
    /\ tokens_issued (final r) = S (tokens_issued w).
Proof.
  intros Hon Hreq Hnul He Hl Hrows Hyes Hdag Huri Hcid Htok r post.
  subst r post.
  rewrite (first_delivery_claims _ _ _ _ _ Hon Hreq He Hl Hrows Hnul).
  destruct (exec_trigger_matching g m attributes (insert_row m w) _ cid token
              Hyes Huri Hcid Htok) as (out & o & Hrun).
  exists o. rewrite Hrun. unfold after_events, dag_run_request.
  rewrite webserver_id_of_appspot, Hdag.
  cbn [trace final PyStr.of_option].
  repeat split; reflexivity.
Qed.


(** C5. Once the token is fetched and the server has replied,
    [make_iap_request] returns the body exactly when the status is 200; on
    403 it raises an [Exception] with the permission message; on any other
    status it raises an [Exception] whose message is the text
    ["Bad response from application: "] followed by the [repr] of the
    status code, of the headers and of the body, and which is never the
    permission message; in each case it has fetched one token and sent
    one request. *)
Theorem make_iap_request_classifies url client_id method kwargs w token resp :
  let sent :=
    mkHttpRequest method url [("Authorization", "Bearer " ++ token)]
      (match kw_timeout kwargs with Some t => t | None => 90 end)
      (kw_json kwargs) in
  let permission :=
    [Lit "Service account does not have permission to access the IAP-protected application."] in
  let bad_response :=
    [Lit "Bad response from application: "; FmtRepr (PInt (status_code resp));
     Lit " / "; FmtRepr (PHeaders (headers resp));
     Lit " / "; FmtRepr (PStr (resp_text resp))] in
  issue_token w (tokens_issued w) client_id = inr token ->
  iap_reply w sent = inr resp ->
  let r := exec (make_iap_request url client_id method kwargs) w in
  (forall b, outcome r = Returned b
             <-> status_code resp = 200 /\ b = resp_text resp)
  /\ (status_code resp = 403 -> outcome r = Raised (Exception permission))
  /\ (status_code resp <> 200 -> status_code resp <> 403 ->
      outcome r = Raised (Exception bad_response))
  /\ bad_response <> permission
  /\ trace r = [(FetchIdToken client_id, None); (RequestsRequest sent, None)].
Proof.
  intros sent permission bad_response Htok Hreply r. subst r.
  rewrite (exec_make_iap_request _ _ _ _ _ _ Htok).
  change (iap_request url method token kwargs) with sent. rewrite Hreply.
  cbn [outcome trace].
  change forbidden_msg with permission.
  change (bad_response_msg resp) with bad_response.
  assert (Hdiff : bad_response <> permission) by discriminate.
  destruct (Z.eqb_spec (status_code resp) 403) as [H403 | H403];
    destruct (Z.eqb_spec (status_code resp) 200) as [H200 | H200];
    try lia.
  - (* 403 *)
    split; [intros b; split; [discriminate | intros [H _]; lia] |].
    repeat split; intros; congruence || lia.
  - (* 200 *)
    split; [intros b; split; [intros [= <-]; now split | intros [_ ->]; reflexivity] |].
    repeat split; intros; congruence || lia.
  - (* any other status *)
    split; [intros b; split; [discriminate | intros [H _]; lia] |].
    repeat split; intros; congruence || lia.
Qed.

(** C10. With [ENABLED] unset, [trigger_dag] raises [AttributeError] at
    its first statement: the only event is the read of the environment,
    and neither the request nor the dedup store is touched. *)
Theorem enabled_unset_raises g request w :
  environ_get (environ w) "ENABLED" = None ->
  let r := exec (trigger_dag g request) w in
  outcome r = Raised (AttributeError "'NoneType' object has no attribute 'lower'")
  /\ trace r = [(EnvironGet "ENABLED", None)]
  /\ final r = w
  /\ filter is_parse (trace r) = []
  /\ filter is_datastore (trace r) = [].
Proof.
  intros Hunset r. subst r. unfold trigger_dag. cbn. rewrite Hunset. cbn.
  repeat split; reflexivity.
Qed.

(** ** The lock discipline of every run *)

Lemma held_throughout_absent p held tr :
  existsb p tr = false -> held_throughout p held tr = true.
Proof.
  revert held. induction tr as [| ev rest IH]; intros held H; cbn in *.
  - reflexivity.
  - apply orb_false_elim in H as [Hev Hrest]. rewrite Hev, IH; auto.
Qed.

Lemma quiet_no_lock tr : forallb is_quiet tr = true -> existsb is_lock tr = false.
Proof.
  induction tr as [| ev rest IH]; cbn; [reflexivity |].
  intros H. apply andb_prop in H as [Hev Hrest]. unfold is_quiet in Hev.
  apply andb_prop in Hev as [Hl _]. apply negb_true_iff in Hl.
  rewrite Hl. auto.
Qed.

Lemma quiet_no_insert tr : forallb is_quiet tr = true -> existsb is_insert tr = false.
Proof.
  induction tr as [| ev rest IH]; cbn; [reflexivity |].
  intros H. apply andb_prop in H as [Hev Hrest]. unfold is_quiet in Hev.
  apply andb_prop in Hev as [_ Hi]. apply negb_true_iff in Hi.
  rewrite Hi. auto.
Qed.

Lemma downstream_absent (p : Event -> bool) tr :
  (forall ev, is_downstream ev = true -> p ev = false) ->
  forallb is_downstream tr = true -> existsb p tr = false.
Proof.
  intros Hp. induction tr as [| ev rest IH]; cbn; [reflexivity |].
  intros H. apply andb_prop in H as [Hev Hrest]. rewrite (Hp ev Hev). auto.
Qed.

(** [parse_notification] makes no call. *)
Lemma parse_notification_pure request_json w :
  trace (exec (parse_notification request_json) w) = [].
Proof.
  assert (H : Frame (fun _ => false) (parse_notification request_json)).
  { unfold parse_notification. cbn [bind ret Monad_Prog]. frame. }
  destruct (H w) as [_ Hall].
  destruct (trace (exec (parse_notification request_json) w)); [reflexivity |].
  discriminate.
Qed.

(** The parsing step changes nothing, and where it hands on an identifier
    the body is an envelope: an object whose ["message"] is an object
    with a ["messageId"]. *)
Lemma parse_notification_envelope request_json w :
  final (exec (parse_notification request_json) w) = w
  /\ forall mid attributes,
       outcome (exec (parse_notification request_json) w)
       = Returned (inr (mid, attributes)) ->
       exists members msg,
         request_json = JObj members
         /\ Py.lookup members "message" = Some (JObj msg)
         /\ Py.lookup msg "messageId" = Some mid
         /\ attributes = match Py.lookup msg "attributes" with
                         | Some a => a
                         | None => JObj []
                         end.
Proof.
  unfold parse_notification. cbn [bind ret Monad_Prog].
  rewrite exec_bind. unfold then_run.
  destruct (Py.truthy request_json);
    [rewrite exec_lift;
     destruct (PyOp.contains request_json "message") as [e | [|]] |];
    cbn [outcome final trace exec];
    try (split; [reflexivity | intros mid attributes H; discriminate]).
  rewrite exec_bind, exec_lift. unfold then_run.
  destruct (PyOp.getitem request_json "message") as [e | message] eqn:Emsg;
    cbn [outcome final trace];
    [split; [reflexivity | intros mid attributes H; discriminate] |].
  rewrite exec_bind, exec_lift. unfold then_run.
  destruct (PyOp.getitem message "messageId") as [e | mid] eqn:Emid;
    cbn [outcome final trace];
    [split; [reflexivity | intros ? ? H; discriminate] |].
  rewrite exec_bind, exec_lift. unfold then_run.
  destruct (PyOp.get_default message "attributes" (JObj [])) as [e | attrs] eqn:Eattr;
    cbn [outcome final trace exec];
    [split; [reflexivity | intros ? ? H; discriminate] |].
  split; [reflexivity |].
  intros mid' attributes [= <- <-].
  destruct request_json as [| | | | | members]; try discriminate.
  destruct message as [| | | | | msg]; try discriminate.
  exists members, msg. unfold PyOp.getitem, PyOp.get_default in *.
  destruct (Py.lookup members "message") as [x |]; [| discriminate].
  injection Emsg as ->.
  destruct (Py.lookup msg "messageId") as [x |]; [| discriminate].
  injection Emid as ->.
  injection Eattr as <-.
  repeat split; reflexivity.
Qed.

(** Where the dedup query answers "no row", the engine was up, the count
    was zero and the world is as before. *)
Lemma message_id_exists_absent mid w :
  final (exec (message_id_exists mid) w) = w
  /\ (outcome (exec (message_id_exists mid) w) = Returned false ->
      engine_fault w = None
      /\ exists n, count_rows mid w = inr n /\ (0 <? n) = false).
Proof.
  unfold message_id_exists, session_scope. cbn.
  destruct (engine_fault w) as [e |]; cbn; [split; [reflexivity | discriminate] |].
  destruct (count_rows mid w) as [e | n]; cbn;
    [split; [reflexivity | discriminate] |].
  split; [destruct (0 <? n); reflexivity |].
  intros H. split; [reflexivity |]. exists n. split; [reflexivity |].
  destruct (0 <? n); [discriminate | reflexivity].
Qed.

Lemma downstream_not_lock ev : is_downstream ev = true -> is_lock ev = false.
Proof. destruct ev as [[] [e |]]; cbn; congruence. Qed.

Lemma count_rows_zero mid w n :
  count_rows mid w = inr n -> (0 <? n) = false -> n = 0.
Proof.
  unfold count_rows.
  destruct (adapt mid) as [e | [t | |]]; try discriminate;
    intros [= <-] H; [| reflexivity].
  apply Z.ltb_ge in H. lia.
Qed.

Lemma count_zero_no_rows m w :
  count_rows (JStr m) w = inr 0 ->
  PyStr.has_nul m = false /\ rows_with m (pubsub_history w) = [].
Proof.
  unfold count_rows, adapt.
  destruct (PyStr.has_nul m); [discriminate |].
  intros [= H]. split; [reflexivity |].
  destruct (rows_with m (pubsub_history w)); [reflexivity | discriminate].
Qed.

(** The dedup query in every world: it neither locks nor inserts, and
    where it answers "no row" it has run to its end. *)
Lemma message_id_exists_trace mid w :
  let r := exec (message_id_exists mid) w in
  forallb is_quiet (trace r) = true
  /\ (outcome r = Returned false ->
      trace r = [(GetEngine, None); (QueryCount mid, None);
                 (Commit [], None); (Close, None)]).
Proof.
  unfold message_id_exists, session_scope. cbn.
  destruct (engine_fault w) as [e |]; cbn; [split; [reflexivity | discriminate] |].
  destruct (count_rows mid w) as [e | n]; cbn; [split; [reflexivity | discriminate] |].
  destruct (0 <? n); cbn; split; reflexivity.
Qed.

(** Lock, insert and trigger in every world: an insert comes right after
    the granted lock, and the lock statement, where it is reached, is the
    second call, after the engine of the new session. *)
Lemma claim_and_trigger_trace g mid attributes w :
  let tr := trace (exec (claim_and_trigger g mid attributes) w) in
  held_throughout is_insert false tr = true
  /\ (existsb is_lock tr = true ->
      exists o rest,
        tr = (GetEngine, None) :: (LockTableNowait, o) :: rest
        /\ existsb is_lock rest = false).
Proof.
  assert (Hdown : forall t,
    let rest := trace (exec (trigger_if_matching g mid attributes) (insert_row t w)) in
    held_throughout is_insert false rest = true /\ existsb is_lock rest = false).
  { intros t.
    destruct (Frame_trigger_if_matching g mid attributes (insert_row t w))
      as [_ Hd].
    split.
    - apply held_throughout_absent.
      apply (downstream_absent _ _ downstream_not_insert Hd).
    - apply (downstream_absent _ _ downstream_not_lock Hd). }
  unfold claim_and_trigger, lock_pubsub_history. cbn.
  destruct (engine_fault w) as [e |]; cbn; [split; [reflexivity | discriminate] |].
  destruct (lock_attempt w) as [e |]; cbn.
  - destruct e as [| | | [code |] | | | | |]; cbn;
      try (split; [reflexivity | intros _; do 2 eexists; split; reflexivity]).
    destruct (String.eqb code "55P03"); cbn;
      (split; [reflexivity | intros _; do 2 eexists; split; reflexivity]).
  - destruct (adapt mid) as [e | [t | |]]; cbn;
      try (split; [reflexivity | intros _; do 2 eexists; split; reflexivity]).
    + destruct (Hdown t) as [Hins Hlock].
      split; [exact Hins |].
      intros _. do 2 eexists. split; [reflexivity |]. exact Hlock.
    + destruct (typed_assignment w mid) as [e | t]; cbn;
        try (split; [reflexivity | intros _; do 2 eexists; split; reflexivity]).
      destruct (Hdown t) as [Hins Hlock].
      split; [exact Hins |].
      intros _. do 2 eexists. split; [reflexivity |]. exact Hlock.
Qed.

(** C3, as amended.  In every run of [trigger_dag], whatever the request
    and the world: a row is inserted only while the table lock is held;
    and where the lock statement is issued, the body is an envelope, the
    dedup query for its [messageId] has answered "no row", in a session of
    its own that is committed and closed by then, and the lock statement
    is the first statement of a second session. *)
Theorem insert_under_lock_check_before g request w :
  let tr := trace (exec (trigger_dag g request) w) in
  held_throughout is_insert false tr = true
  /\ (existsb is_lock tr = true ->
      exists members msg mid o rest,
        get_json_silent request = JObj members
        /\ Py.lookup members "message" = Some (JObj msg)
        /\ Py.lookup msg "messageId" = Some mid
        /\ count_rows mid w = inr 0
        /\ (forall m, mid = JStr m -> rows_with m (pubsub_history w) = [])
        /\ tr = ([(EnvironGet "ENABLED", None); (RequestGetJson request, None);
                  (GetEngine, None); (QueryCount mid, None);
                  (Commit [], None); (Close, None);
                  (GetEngine, None); (LockTableNowait, o)] ++ rest)%list
        /\ existsb is_lock rest = false).
Proof.
  unfold trigger_dag. cbn.
  destruct (environ_get (environ w) "ENABLED") as [v |]; cbn;
    [| split; [reflexivity | discriminate]].
  destruct (String.eqb (PyStr.lower v) "false"); cbn;
    [split; [reflexivity | discriminate] |].
  rewrite exec_bind. unfold then_run.
  rewrite (parse_notification_pure (get_json_silent request) w).
  destruct (parse_notification_envelope (get_json_silent request) w)
    as [Hfinal Henv].
  destruct (outcome (exec (parse_notification (get_json_silent request)) w))
    as [[resp | [mid attributes]] | e]; cbn;
    try (split; [reflexivity | discriminate]).
  rewrite Hfinal.
  destruct (Henv mid attributes eq_refl)
    as (members & msg & Hjson & Hmsg & Hmid & _).
  rewrite exec_bind. unfold then_run.
  destruct (message_id_exists_trace mid w) as [Hquiet Hfalse].
  destruct (message_id_exists_absent mid w) as [Hsame Hzero].
  destruct (outcome (exec (message_id_exists mid) w)) as [[|] | e] eqn:Eseen;
    cbn.
  - rewrite app_nil_r. split.
    + apply held_throughout_absent, quiet_no_insert, Hquiet.
    + rewrite (quiet_no_lock _ Hquiet). discriminate.
  - rewrite (Hfalse eq_refl), Hsame. cbn.
    destruct (claim_and_trigger_trace g mid attributes w) as [Hins Hlock].
    split; [exact Hins |].
    intros H. destruct (Hlock H) as (o & rest & Htr & Hrest).
    destruct (Hzero eq_refl) as (_ & n & Hcount & Hn).
    rewrite (count_rows_zero _ _ _ Hcount Hn) in Hcount.
    exists members, msg, mid, o, rest. rewrite Htr.
    repeat (split; [assumption || reflexivity |]).
    split; [| split; [reflexivity | exact Hrest]].
    intros m ->. apply (count_zero_no_rows m w Hcount).
  - split.
    + apply held_throughout_absent, quiet_no_insert, Hquiet.
    + rewrite (quiet_no_lock _ Hquiet). discriminate.
Qed.

(** C3, as stated, fails: on the first delivery of ["abc123"] the dedup
    query is sent before the lock statement, in a session that never
    holds the lock. *)
Lemma check_outside_lock :
  held_throughout is_check_or_insert false
    (trace (exec (trigger_dag Sample.globals Sample.delivery) Sample.world))
  = false
  /\ ~ (forall g request w,
          held_throughout is_check_or_insert false
            (trace (exec (trigger_dag g request) w)) = true).
Proof.
  assert (H : held_throughout is_check_or_insert false
                (trace (exec (trigger_dag Sample.globals Sample.delivery)
                          Sample.world)) = false) by (vm_compute; reflexivity).
  split; [exact H |].
  intros Hall. rewrite Hall in H. discriminate.
Qed.

(** C6: the envelope [{"message": {}}] has no [messageId]; [trigger_dag]
    does not answer it with the "Malformed Event Notification" response
    but raises [KeyError] (the store is not touched). *)
Theorem missing_message_id_raises :
  let r := exec (trigger_dag Sample.globals Sample.no_message_id) Sample.world in
  outcome r = Raised (KeyError "messageId")
  /\ filter is_datastore (trace r) = []
  /\ final r = Sample.world.
Proof. vm_compute. repeat split; reflexivity. Qed.

(** C9: the first delivery of a well-formed message ends without a
    [Response]: [trigger_dag] falls off its end and returns [None], both
    when the attributes pass the filter and when they do not. *)
Theorem first_delivery_returns_none :
  outcome (exec (trigger_dag Sample.globals Sample.delivery) Sample.world)
  = Returned None
  /\ outcome (exec (trigger_dag Sample.globals Sample.filtered_delivery)
                Sample.world)
     = Returned None.
Proof. vm_compute. split; reflexivity. Qed.

(** ** The responses [trigger_dag] does return *)



(** The only [Response] of the parsing step is the 500. *)
Lemma parse_notification_response request_json w r :
  outcome (exec (parse_notification request_json) w) = Returned (inl r) ->
  r = malformed_response.
Proof.
  unfold parse_notification. cbn [bind ret Monad_Prog].
  rewrite exec_bind. unfold then_run.
  destruct (Py.truthy request_json);
    [rewrite exec_lift;
     destruct (PyOp.contains request_json "message") as [e | [|]] |];
    cbn [outcome final trace exec]; try discriminate;
    try (intros [= <-]; reflexivity).
  rewrite exec_bind, exec_lift. unfold then_run.
  destruct (PyOp.getitem request_json "message") as [e | message];
    cbn [outcome final]; [discriminate |].
  rewrite exec_bind, exec_lift. unfold then_run.
  destruct (PyOp.getitem message "messageId") as [e | mid];
    cbn [outcome final]; [discriminate |].
  rewrite exec_bind, exec_lift. unfold then_run.
  destruct (PyOp.get_default message "attributes" (JObj [])) as [e | attributes];
    cbn; discriminate.
Qed.

(** Whenever [trigger_dag] returns a [Response], its status is 418, 500
    or 200, and no row was inserted on the way. *)
Lemma returned_response_status g request w resp :
  let r := exec (trigger_dag g request) w in
  outcome r = Returned (Some resp) ->
  (status resp = 418 \/ status resp = 500 \/ status resp = 200)
  /\ existsb is_insert (trace r) = false.
Proof.
  unfold trigger_dag. cbn.
  destruct (environ_get (environ w) "ENABLED") as [v |]; cbn; [| discriminate].
  destruct (String.eqb (PyStr.lower v) "false"); cbn;
    [intros [= <-]; split; [now left | reflexivity] |].
  rewrite exec_bind. unfold then_run.
  rewrite (parse_notification_pure (get_json_silent request) w).
  destruct (outcome (exec (parse_notification (get_json_silent request)) w))
    as [[bad | [mid attributes]] | e] eqn:Eparse; cbn; try discriminate.
  - apply parse_notification_response in Eparse. subst bad.
    intros [= <-]. split; [right; now left | reflexivity].
  - set (w1 := final (exec (parse_notification (get_json_silent request)) w)).
    rewrite exec_bind. unfold then_run.
    destruct (message_id_exists_trace mid w1) as [Hquiet Hfalse].
    destruct (outcome (exec (message_id_exists mid) w1)) as [[|] | e] eqn:Eseen;
      cbn; try discriminate.
    + intros [= <-]. rewrite app_nil_r.
      split; [right; now right | apply quiet_no_insert, Hquiet].
    + set (w2 := final (exec (message_id_exists mid) w1)).
      rewrite (Hfalse eq_refl). cbn.
      unfold claim_and_trigger, lock_pubsub_history. cbn.
      destruct (engine_fault w2) as [e |]; cbn; [discriminate |].
      destruct (lock_attempt w2) as [e |]; cbn.
      * destruct e as [| | | [code |] | | | | |]; cbn; try discriminate.
        destruct (String.eqb code "55P03"); cbn; [| discriminate].
        intros [= <-]. split; [right; now right | reflexivity].
      * destruct (adapt mid) as [e | [t | |]]; cbn; try discriminate;
          [| destruct (typed_assignment w2 mid) as [e | t]; cbn;
             try discriminate];
          (intros H; exfalso; revert H;
           apply trigger_if_matching_no_response).
Qed.

(** ** Concurrent deliveries *)

Module PoolFacts.
Import Pool.

Lemma with_lock_attempt_same w : with_lock_attempt w (lock_attempt w) = w.
Proof. destruct w; reflexivity. Qed.

Lemma flush_lock_attempt pending :
  forall w w', flush pending w = inr w' -> lock_attempt w' = lock_attempt w.
Proof.
  induction pending as [| v rest IH]; intros w w' H.
  - now inversion H.
  - apply flush_cons in H as [t H].
    apply IH in H. exact H.
Qed.

Lemma handle_lock_attempt c w :
  lock_attempt (snd (handle c w)) = lock_attempt w.
Proof.
  destruct c; cbn; try reflexivity.
  destruct (flush pending w) as [e | w'] eqn:E; cbn; [reflexivity |].
  eapply flush_lock_attempt; eauto.
Qed.

Lemma others_without t s rs : others t rs = false -> others t (without s rs) = false.
Proof.
  unfold others, without. induction rs as [| r rest IH]; cbn; [reflexivity |].
  intros H. apply orb_false_elim in H as [Hr Hrest].
  destruct (negb (r =? s)%nat); cbn; [rewrite Hr |]; auto.
Qed.

(** An invocation that runs alone in the pool, with no lock in another
    session's hands, does what [exec] says: the same calls with the same
    results, the same world after them, the same outcome. *)
Lemma crun_alone (p : Prog (option Response)) :
  forall w h rs lg,
    held_by_other h 0 = false -> others 0 rs = false ->
    exists h' rs' p',
      crun (repeat 0%nat (length (trace (exec p w)))) (mkConfig w h rs [p] lg)
      = Some (mkConfig (final (exec p w)) h' rs' [p']
                (lg ++ map (pair 0%nat) (trace (exec p w)))%list)
      /\ result_of p' = Some (outcome (exec p w))
      /\ held_by_other h' 0 = false /\ others 0 rs' = false.
Proof.
  induction p as [a | e | c k IH]; intros w h rs lg Hh Hrs.
  - exists h, rs, (Ret a). cbn. rewrite app_nil_r. repeat split; assumption.
  - exists h, rs, (Raise e). cbn. rewrite app_nil_r. repeat split; assumption.
  - cbn [exec trace length repeat crun].
    unfold cstep. cbn [threads nth_error holder readers]. rewrite Hh, andb_false_r.
    unfold lock_answer. cbn [holder readers shared]. rewrite Hh, Hrs. cbn [orb].
    rewrite with_lock_attempt_same.
    rewrite <- (handle_lock_attempt c w), with_lock_attempt_same.
    cbn [set_nth log].
    set (o := fst (handle c w)). set (w' := snd (handle c w)).
    set (h1 := holder_after h 0 c o (k o)).
    set (rs1 := readers_after rs 0 c o (k o)).
    assert (Hh1 : held_by_other h1 0 = false).
    { unfold h1, holder_after.
      destruct (grants c o); [reflexivity |].
      destruct (_ && _); [reflexivity | exact Hh]. }
    assert (Hrs1 : others 0 rs1 = false).
    { unfold rs1, readers_after.
      destruct (_ || _); [now apply others_without |].
      destruct (reads c o); [exact Hrs | exact Hrs]. }
    destruct (IH o w' h1 rs1 (lg ++ [(0%nat, event_of c o)])%list Hh1 Hrs1)
      as (h' & rs' & p' & Hrun & Hres & Hh' & Hrs').
    exists h', rs', p'. rewrite Hrun. cbn [final outcome trace map].
    rewrite <- app_assoc. repeat split; assumption.
Qed.

End PoolFacts.

(** C2: two concurrent deliveries of ["abc123"].  Both make the dedup
    query before either takes the lock; the first then locks, inserts and
    commits, which releases the lock; the second is granted the lock in
    turn and inserts again.  Both invocations come out as first claims
    (neither is answered "already processed"), the table holds two rows
    for the identifier, and the DAG is triggered twice. *)
Theorem concurrent_deliveries_both_claim :
  let two := [trigger_dag Sample.globals Sample.delivery;
              trigger_dag Sample.globals Sample.delivery] in
  let schedule := (repeat 0 6 ++ repeat 1 6 ++ repeat 0 9 ++ repeat 1 9)%list%nat in
  option_map
    (fun cfg =>
       (map Pool.result_of (Pool.threads cfg),
        rows_with "abc123" (pubsub_history (Pool.shared cfg)),
        map fst (filter (fun e => is_insert (snd e)) (Pool.log cfg)),
        map fst (filter (fun e => is_http_request (snd e)) (Pool.log cfg))))
    (Pool.crun schedule (Pool.start Sample.world two))
  = Some ([Some (Returned None); Some (Returned None)],
          [mkPubSubHistory 1 "abc123" 1000; mkPubSubHistory 2 "abc123" 1000],
          [0%nat; 1%nat],
          [0%nat; 1%nat]).
Proof. vm_compute. reflexivity. Qed.

(** A delivery that asks for the lock while the other is still inside its
    dedup query is turned away as well: it answers "already processed"
    for an identifier nobody has claimed yet. *)
Example concurrent_delivery_reader_denies :
  let two := [trigger_dag Sample.globals Sample.delivery;
              trigger_dag Sample.globals Sample.delivery] in
  let schedule := (repeat 0 6 ++ repeat 1 4 ++ repeat 0 3
                   ++ repeat 1 11)%list%nat in
  option_map
    (fun cfg =>
       (map Pool.result_of (Pool.threads cfg),
        rows_with "abc123" (pubsub_history (Pool.shared cfg))))
    (Pool.crun schedule (Pool.start Sample.world two))
  = Some ([Some (Returned (Some (already_processed_response (JStr "abc123"))));
           Some (Returned None)],
          [mkPubSubHistory 1 "abc123" 1000]).
Proof. vm_compute. reflexivity. Qed.

(** Where the second delivery asks for the lock while the first holds
    it, it is turned away with 55P03 and answers "already processed". *)
Example concurrent_delivery_lock_denied :
  let two := [trigger_dag Sample.globals Sample.delivery;
              trigger_dag Sample.globals Sample.delivery] in
  let schedule := (repeat 0 6 ++ repeat 1 6 ++ repeat 0 2 ++ repeat 1 3
                   ++ repeat 0 7)%list%nat in
  option_map
    (fun cfg =>
       (map Pool.result_of (Pool.threads cfg),
        rows_with "abc123" (pubsub_history (Pool.shared cfg))))
    (Pool.crun schedule (Pool.start Sample.world two))
  = Some ([Some (Returned None);
           Some (Returned (Some (already_processed_response (JStr "abc123"))))],
          [mkPubSubHistory 1 "abc123" 1000]).
Proof. vm_compute. reflexivity. Qed.

(** ** The theorems at the sample deliveries *)

Lemma sample_enabled : enabled Sample.world.
Proof. exists "true". split; reflexivity. Defined.

Lemma sample_carries :
  carries Sample.delivery "abc123" (JObj Sample.sales_attributes).
Proof.
  exists [("message",
           JObj [("messageId", JStr "abc123");
                 ("attributes", JObj Sample.sales_attributes)])],
         [("messageId", JStr "abc123");
          ("attributes", JObj Sample.sales_attributes)].
  repeat split; reflexivity.
Defined.

Lemma sample_carries_filtered :
  carries Sample.filtered_delivery "abc123" (JObj Sample.other_attributes).
Proof.
  exists [("message",
           JObj [("messageId", JStr "abc123");
                 ("attributes", JObj Sample.other_attributes)])],
         [("messageId", JStr "abc123");
          ("attributes", JObj Sample.other_attributes)].
  repeat split; reflexivity.
Defined.



(** C8 at the sample: the one request of the first delivery of
    ["abc123"] *)
Lemma matching_delivery_posts_once_sample :
  exists o,
    filter is_http_request
      (trace (exec (trigger_dag Sample.globals Sample.delivery) Sample.world))
    = [(RequestsRequest
          (mkHttpRequest "POST"
             "https://bc5c0e43e23571a62-tp.appspot.com/api/experimental/dags/my_dag/dag_runs"
             [("Authorization", "Bearer token-1")]
             90
             (Some (JObj [("conf", JStr "abc123")]))), o)].
Proof.
  destruct (matching_delivery_posts_once Sample.globals Sample.delivery "abc123"
              (JObj Sample.sales_attributes) Sample.world
              "bc5c0e43e23571a62-tp" "my_dag"
              "573384987581.apps.googleusercontent.com" "token-1"
              sample_enabled sample_carries eq_refl eq_refl eq_refl eq_refl
              eq_refl eq_refl eq_refl eq_refl eq_refl)
    as (o & _ & Hpost & _).
  exists o. exact Hpost.
Defined.

(** C3 at the sample: the first delivery of ["abc123"] reaches the lock
    statement after the dedup query and its session. *)
Lemma insert_under_lock_check_before_sample :
  exists o rest,
    trace (exec (trigger_dag Sample.globals Sample.delivery) Sample.world)
    = ([(EnvironGet "ENABLED", None); (RequestGetJson Sample.delivery, None);
        (GetEngine, None); (QueryCount (JStr "abc123"), None);
        (Commit [], None); (Close, None);
        (GetEngine, None); (LockTableNowait, o)] ++ rest)%list.
Proof.
  destruct (proj2 (insert_under_lock_check_before Sample.globals Sample.delivery
                     Sample.world) eq_refl)
    as (members & msg & mid & o & rest & Hjson & Hmsg & Hmid & _ & _ & Htr & _).
  injection Hjson as <-.
  injection Hmsg as <-.
  injection Hmid as <-.
  exists o, rest. exact Htr.
Defined.


(** C5 at the sample: the server answers 200 with body ["ok"], 403, and
    503 *)
Lemma make_iap_request_classifies_sample :
  let run :=
    exec (make_iap_request "https://example.appspot.com/api" "client" "POST"
            (mkKwargs None None)) in
  outcome (run Sample.world) = Returned "ok"
  /\ outcome (run Scenario.world_forbidden)
     = Raised (Exception
                 [Lit "Service account does not have permission to access the IAP-protected application."])
  /\ outcome (run Scenario.world_unavailable)
     = Raised (Exception
                 [Lit "Bad response from application: "; FmtRepr (PInt 503);
                  Lit " / "; FmtRepr (PHeaders [("Retry-After", "120")]);
                  Lit " / "; FmtRepr (PStr "Service Unavailable")]).
Proof.
  split; [| split].
  - apply (proj1 (make_iap_request_classifies "https://example.appspot.com/api"
                    "client" "POST" (mkKwargs None None) Sample.world "token-1"
                    (mkHttpResponse 200 [] "ok") eq_refl eq_refl)).
    split; reflexivity.
  - apply (proj1 (proj2 (make_iap_request_classifies
                           "https://example.appspot.com/api" "client" "POST"
                           (mkKwargs None None) Scenario.world_forbidden "token-1"
                           (mkHttpResponse 403 [("Content-Type", "text/html")]
                              "Forbidden")
                           eq_refl eq_refl))).
    reflexivity.
  - apply (proj1 (proj2 (proj2 (make_iap_request_classifies
                                  "https://example.appspot.com/api" "client" "POST"
                                  (mkKwargs None None) Scenario.world_unavailable
                                  "token-1"
                                  (mkHttpResponse 503 [("Retry-After", "120")]
                                     "Service Unavailable")
                                  eq_refl eq_refl))));
      discriminate.
Defined.

(** C10 at the sample, with [ENABLED] unset *)
Lemma enabled_unset_raises_sample :
  outcome (exec (trigger_dag Sample.globals Sample.delivery) Sample.world_unset)
  = Raised (AttributeError "'NoneType' object has no attribute 'lower'").
Proof.
  exact (proj1 (enabled_unset_raises Sample.globals Sample.delivery
                  Sample.world_unset eq_refl)).
Defined.

(** * Further properties of the code *)

(** ** The webserver id cut out of the Airflow URI *)

(** X1. [get_airflow_webserver_id] gives back the id of a Composer web
    server address: from [https://{id}.appspot.com] it cuts out [id],
    whatever the id is made of. *)
Theorem webserver_id_round_trip (wid : string) :
  webserver_id_of ("https://" ++ wid ++ ".appspot.com") = wid.
Proof.
  unfold webserver_id_of, PyStr.find, PyStr.rfind.
  rewrite (PyStrFacts.find_from_prefix _ _ _ (PyStrFacts.prefix_append _ _)).
  rewrite <- PyStrFacts.append_assoc.
  rewrite PyStrFacts.rfind_from_suffix by (discriminate || lia).
  rewrite PyStrFacts.append_assoc.
  unfold PyStr.slice, PyStr.clamp, PyStr.len.
  rewrite !PyStrFacts.length_append.
  change (String.length "https://") with 8%nat.
  change (String.length ".appspot.com") with 12%nat.
  set (n := String.length wid).
  assert (Hn : n = String.length wid) by reflexivity.
  destruct (Z.ltb_spec (0 + Z.of_nat 8) 0); [lia |].
  destruct (Z.ltb_spec (0 + Z.of_nat (8 + n)) 0); [lia |].
  rewrite !Z.min_l by lia.
  destruct (Z.ltb_spec (0 + Z.of_nat 8) (0 + Z.of_nat (8 + n))) as [Hlt | Hge].
  - replace (Z.to_nat (0 + Z.of_nat 8)) with (String.length "https://")
      by (cbn; lia).
    replace (Z.to_nat (0 + Z.of_nat (8 + n) - (0 + Z.of_nat 8))) with n by lia.
    rewrite Hn. apply PyStrFacts.substring_middle.
  - symmetry. apply PyStrFacts.length_zero. lia.
Qed.

(** X2. Where the address has no [.appspot.com], [rfind] answers -1 and
    the slice ends one character before the end: the function returns the
    address after [https://] without its last character, and no error. *)
Theorem webserver_id_without_appspot (rest : string) :
  PyStr.contains ("https://" ++ rest) ".appspot.com" = false ->
  webserver_id_of ("https://" ++ rest)
  = String.substring 0 (String.length rest - 1) rest.
Proof.
  intros Habsent. unfold PyStr.contains, PyStr.find in Habsent.
  apply Z.leb_gt in Habsent.
  unfold webserver_id_of, PyStr.find, PyStr.rfind.
  rewrite (PyStrFacts.find_from_prefix _ _ _ (PyStrFacts.prefix_append _ _)).
  rewrite (PyStrFacts.rfind_from_absent _ _ 0) by (lia || assumption).
  unfold PyStr.slice, PyStr.clamp, PyStr.len.
  rewrite !PyStrFacts.length_append.
  change (String.length "https://") with 8%nat.
  set (n := String.length rest).
  destruct (Z.ltb_spec (0 + Z.of_nat 8) 0); [lia |].
  change (-1 <? 0) with true. cbv iota.
  rewrite Z.min_l, Z.max_l by lia.
  destruct (Z.ltb_spec (0 + Z.of_nat 8) (-1 + Z.of_nat (8 + n))) as [Hlt | Hge].
  - replace (Z.to_nat (0 + Z.of_nat 8)) with 8%nat by lia.
    replace (Z.to_nat (-1 + Z.of_nat (8 + n) - (0 + Z.of_nat 8)))
      with (n - 1)%nat by lia.
    reflexivity.
  - replace (n - 1)%nat with 0%nat by lia.
    now rewrite PyStrFacts.substring_none.
Qed.

Lemma webserver_id_without_appspot_sample :
  webserver_id_of "https://example.com" = "example.co".
Proof.
  exact (webserver_id_without_appspot "example.com" eq_refl).
Defined.

(** ** The IAP request when a service fails *)

(** X3. If the identity token cannot be fetched, [make_iap_request]
    raises that error and sends no request at all. *)
Theorem make_iap_request_without_token url client_id method kwargs w e :
  issue_token w (tokens_issued w) client_id = inl e ->
  let r := exec (make_iap_request url client_id method kwargs) w in
  outcome r = Raised e
  /\ trace r = [(FetchIdToken client_id, Some e)]
  /\ filter is_http_request (trace r) = [].
Proof.
  intros Htok. unfold make_iap_request. cbn. rewrite Htok. cbn.
  repeat split; reflexivity.
Qed.

(** X4. If the request itself fails (timeout, connection refused), the
    error of [requests] leaves [make_iap_request] as it is: the request
    was sent once and is not sent again. *)
Theorem make_iap_request_transport_error url client_id method kwargs w token e :
  issue_token w (tokens_issued w) client_id = inr token ->
  iap_reply w (iap_request url method token kwargs) = inl e ->
  let r := exec (make_iap_request url client_id method kwargs) w in
  outcome r = Raised e
  /\ trace r = [(FetchIdToken client_id, None);
                (RequestsRequest (iap_request url method token kwargs), Some e)].
Proof.
  intros Htok Hreply r. subst r.
  rewrite (exec_make_iap_request _ _ _ _ _ _ Htok), Hreply.
  split; reflexivity.
Qed.

(** ** Sessions *)

Lemma exec_try_except {A : Type} (p : Prog A) (h : exn -> Prog A) w :
  exec (try_except p h) w
  = match outcome (exec p w) with
    | Returned _ => exec p w
    | Raised e =>
        let r := exec (h e) (final (exec p w)) in
        mkRun (outcome r) (final r) (trace (exec p w) ++ trace r)%list
    end.
Proof.
  revert w. induction p as [a | e | c k IH]; intros w.
  - reflexivity.
  - cbn. destruct (exec (h e) w); reflexivity.
  - cbn. rewrite IH.
    destruct (exec (k (fst (handle c w))) (snd (handle c w))) as [[a | e] f t];
      reflexivity.
Qed.

Lemma exec_try_finally {A : Type} (p : Prog A) (q : Prog unit) w :
  exec (try_finally p q) w
  = let r := exec p w in
    let rq := exec q (final r) in
    mkRun (match outcome rq with
           | Returned _ => outcome r
           | Raised e => Raised e
           end)
      (final rq) (trace r ++ trace rq)%list.
Proof.
  revert w. induction p as [a | e | c k IH]; intros w.
  - cbn. rewrite exec_bind. unfold then_run.
    destruct (outcome (exec q w)); cbn; [now rewrite app_nil_r | reflexivity].
  - cbn. rewrite exec_bind. unfold then_run.
    destruct (outcome (exec q w)); cbn; [now rewrite app_nil_r | reflexivity].
  - cbn. rewrite IH. reflexivity.
Qed.

(** X5. [session_scope] around any body, with the engine up: the body
    runs once; if it returns, the session is committed and closed and the
    value is handed on; if it raises, the session is rolled back and
    closed and the same exception is raised again. *)
Theorem session_scope_commits_or_rolls_back {A : Type} (body : Prog A) w :
  engine_fault w = None ->
  let rb := exec body w in
  exec (session_scope body) w
  = mkRun (outcome rb) (final rb)
      ((GetEngine, None)
       :: trace rb
       ++ [(match outcome rb with
            | Returned _ => Commit []
            | Raised _ => Rollback
            end, None);
           (Close, None)])%list.
Proof.
  intros He. cbv zeta. unfold session_scope.
  cbn [bind ret raise catch Monad_Prog Exc_Prog].
  rewrite exec_bind. unfold then_run at 1. cbn. rewrite He. cbn.
  rewrite exec_try_finally, exec_try_except.
  rewrite exec_bind. unfold then_run.
  destruct (exec body w) as [[a | e] f t]; cbn;
    rewrite <- app_assoc; reflexivity.
Qed.

(** The dedup query with the engine up: the count, or the exception of
    the driver or the server after a rollback. *)
Lemma exec_message_id_exists_any mid w :
  engine_fault w = None ->
  outcome (exec (message_id_exists mid) w)
  = match count_rows mid w with
    | inl e => Raised e
    | inr n => Returned (0 <? n)
    end.
Proof.
  intros He. unfold message_id_exists, session_scope. cbn. rewrite He. cbn.
  destruct (count_rows mid w) as [e | n]; cbn; [reflexivity |].
  destruct (0 <? n); reflexivity.
Qed.

(** X6. [message_id_exists] only reads, for an identifier of any JSON
    type and in any world: the world after it is the world before it and
    nothing is locked or inserted.  With the engine up, a string without
    U+0000 is answered by whether it has a row; a string with U+0000
    raises [ValueError]; [None] is answered [False]; the empty list is
    answered by whether the text ['{}'] has a row; a number, a boolean
    and a dict raise. *)
Theorem message_id_exists_reads_only mid w :
  let r := exec (message_id_exists mid) w in
  let has_row (t : string) :=
    match rows_with t (pubsub_history w) with
    | [] => false
    | _ :: _ => true
    end in
  final r = w
  /\ existsb is_lock (trace r) = false
  /\ existsb is_insert (trace r) = false
  /\ (forall b, outcome r = Returned b -> engine_fault w = None)
  /\ (engine_fault w = None ->
      (forall m, mid = JStr m -> PyStr.has_nul m = false ->
                 outcome r = Returned (has_row m))
      /\ (forall m, mid = JStr m -> PyStr.has_nul m = true ->
                    exists msg, outcome r = Raised (ValueError msg))
      /\ (mid = JNull -> outcome r = Returned false)
      /\ (mid = JArr [] -> outcome r = Returned (has_row "{}"))
      /\ (forall n, mid = JNum n -> exists e, outcome r = Raised e)
      /\ (forall b, mid = JBool b -> exists e, outcome r = Raised e)
      /\ (forall members, mid = JObj members -> exists e, outcome r = Raised e)).
Proof.
  cbv zeta.
  destruct (message_id_exists_trace mid w) as [Hquiet _].
  destruct (message_id_exists_absent mid w) as [Hsame _].
  split; [exact Hsame |].
  split; [exact (quiet_no_lock _ Hquiet) |].
  split; [exact (quiet_no_insert _ Hquiet) |].
  split.
  - intros b. unfold message_id_exists, session_scope. cbn.
    destruct (engine_fault w) as [e |]; cbn; [discriminate | reflexivity].
  - intros He. rewrite (exec_message_id_exists_any _ _ He).
    assert (Hrow : forall t,
      (0 <? Z.of_nat (length (rows_with t (pubsub_history w))))
      = match rows_with t (pubsub_history w) with
        | [] => false
        | _ :: _ => true
        end).
    { intros t. destruct (rows_with t (pubsub_history w)); reflexivity. }
    unfold count_rows.
    repeat split.
    + intros m -> Hnul. rewrite (adapt_plain _ Hnul), Hrow. reflexivity.
    + intros m -> Hnul. unfold adapt. rewrite Hnul. eexists. reflexivity.
    + intros ->. reflexivity.
    + intros ->. unfold adapt. rewrite Hrow. reflexivity.
    + intros n ->. eexists. reflexivity.
    + intros b ->. eexists. reflexivity.
    + intros members ->. eexists. reflexivity.
Qed.

(** ** What one delivery does to the table *)

(** The values that reach the server as a quoted literal are strings and
    lists. *)
Lemma adapt_text mid t :
  adapt mid = inr (SqlText t) ->
  (mid = JStr t /\ PyStr.has_nul t = false)
  \/ exists items, mid = JArr items /\ (items = [] -> t = "{}").
Proof.
  destruct mid as [| b | n | m | items | members]; try discriminate.
  - unfold adapt. destruct (PyStr.has_nul m) eqn:Hnul; [discriminate |].
    intros [= <-]. left. now split.
  - intros H. right. exists items. split; [reflexivity |].
    intros ->. now injection H as <-.
Qed.

(** The table after one invocation: as before, or with one row more, the
    row of the text the identifier of the envelope is sent as. *)
Lemma trigger_dag_row_cases g request w :
  let r := exec (trigger_dag g request) w in
  pubsub_history (final r) = pubsub_history w
  \/ exists members msg mid t,
       get_json_silent request = JObj members
       /\ Py.lookup members "message" = Some (JObj msg)
       /\ Py.lookup msg "messageId" = Some mid
       /\ adapt mid = inr (SqlText t)
       /\ rows_with t (pubsub_history w) = []
       /\ pubsub_history (final r)
          = (pubsub_history w ++ [mkPubSubHistory (id_seq w) t (db_now w)])%list.
Proof.
  unfold trigger_dag. cbn.
  destruct (environ_get (environ w) "ENABLED") as [v |]; cbn; [| now left].
  destruct (String.eqb (PyStr.lower v) "false"); cbn; [now left |].
  rewrite exec_bind. unfold then_run.
  destruct (parse_notification_envelope (get_json_silent request) w)
    as [Hfinal Henv].
  destruct (outcome (exec (parse_notification (get_json_silent request)) w))
    as [[bad | [mid attributes]] | e]; cbn; rewrite Hfinal; try now left.
  destruct (Henv mid attributes eq_refl)
    as (members & msg & Hjson & Hmsg & Hmid & Hattr).
  rewrite exec_bind. unfold then_run.
  destruct (message_id_exists_absent mid w) as (Hsame & Hseen).
  destruct (outcome (exec (message_id_exists mid) w)) as [[|] | e]; cbn;
    rewrite Hsame; try now left.
  destruct (Hseen eq_refl) as (He & n & Hcount & Hn).
  unfold claim_and_trigger, lock_pubsub_history. cbn. rewrite He. cbn.
  destruct (lock_attempt w) as [e |]; cbn.
  { destruct e as [| | | [code |] | | | | |]; cbn; try now left.
    destruct (String.eqb code "55P03"); cbn; now left. }
  unfold count_rows in Hcount.
  destruct (adapt mid) as [e | [t | |]] eqn:Eadapt; cbn; try now left;
    try discriminate.
  right. exists members, msg, mid, t.
  repeat (split; [assumption || reflexivity |]).
  split.
  - injection Hcount as <-.
    destruct (rows_with t (pubsub_history w)); [reflexivity | discriminate].
  - rewrite (proj1 (Frame_trigger_if_matching g mid attributes
                      (insert_row t w))).
    reflexivity.
Qed.

(** X7. One invocation of [trigger_dag], whatever the request and the
    world, leaves the rows of the table as they are and appends at most
    one.  A row is appended only for an envelope whose identifier is a
    string without U+0000, or a list, and whose text had no row so far;
    the row holds that text: the string itself, and ['{}'] for the empty
    list. *)
Theorem trigger_dag_appends_at_most_one_row g request w :
  let r := exec (trigger_dag g request) w in
  pubsub_history (final r) = pubsub_history w
  \/ exists members msg mid t,
       get_json_silent request = JObj members
       /\ Py.lookup members "message" = Some (JObj msg)
       /\ Py.lookup msg "messageId" = Some mid
       /\ ((mid = JStr t /\ PyStr.has_nul t = false)
           \/ exists items, mid = JArr items /\ (items = [] -> t = "{}"))
       /\ rows_with t (pubsub_history w) = []
       /\ pubsub_history (final r)
          = (pubsub_history w ++ [mkPubSubHistory (id_seq w) t (db_now w)])%list.
Proof.
  destruct (trigger_dag_row_cases g request w)
    as [Hsame | (members & msg & mid & t & Hjson & Hmsg & Hmid & Hadapt
                 & Hfresh & Hrow)].
  - left. exact Hsame.
  - right. exists members, msg, mid, t.
    repeat (split; [assumption |]).
    split; [exact (adapt_text _ _ Hadapt) |].
    split; assumption.
Qed.

(** ** Deliveries one after the other *)

Lemma rows_with_none m rows :
  rows_with m rows = [] -> ~ In m (map message_id rows).
Proof.
  induction rows as [| r rows IH]; cbn; [tauto |].
  destruct (String.eqb_spec (message_id r) m) as [-> | Hne]; [discriminate |].
  intros H [Heq | Hin]; [congruence | now apply IH].
Qed.

Lemma NoDup_snoc {A : Type} (l : list A) (x : A) :
  NoDup l -> ~ In x l -> NoDup (l ++ [x]).
Proof.
  induction l as [| y l IH]; cbn; intros Hl Hx.
  - constructor; [tauto | constructor].
  - inversion Hl as [| ? ? Hy Hl']; subst.
    constructor.
    + rewrite in_app_iff. cbn. intuition congruence.
    + apply IH; tauto.
Qed.

Lemma trigger_dag_keeps_identifiers_distinct g request w :
  NoDup (map message_id (pubsub_history w)) ->
  NoDup (map message_id (pubsub_history (final (exec (trigger_dag g request) w)))).
Proof.
  intros Hnd.
  destruct (trigger_dag_row_cases g request w)
    as [-> | (members & msg & mid & t & _ & _ & _ & _ & Hfresh & ->)];
    [exact Hnd |].
  rewrite map_app. cbn. apply NoDup_snoc; [exact Hnd |].
  now apply rows_with_none.
Qed.

(** X8. However many deliveries are handled one after the other, with
    whatever bodies and whatever the services answer: if no identifier
    had two rows before, none has two rows after. *)
Theorem sequential_deliveries_keep_identifiers_distinct g requests :
  forall w,
    NoDup (map message_id (pubsub_history w)) ->
    NoDup (map message_id (pubsub_history (fst (deliver_all g requests w)))).
Proof.
  induction requests as [| request rest IH]; intros w Hnd; cbn [deliver_all].
  - exact Hnd.
  - specialize (IH (final (exec (trigger_dag g request) w))
                  (trigger_dag_keeps_identifiers_distinct g request w Hnd)).
    destruct (deliver_all g rest (final (exec (trigger_dag g request) w))).
    exact IH.
Qed.

Lemma sequential_deliveries_keep_identifiers_distinct_sample :
  NoDup (map message_id
           (pubsub_history
              (fst (deliver_all Sample.globals
                      [Sample.delivery; Sample.filtered_delivery; Sample.delivery]
                      Sample.world)))).
Proof.
  apply (sequential_deliveries_keep_identifiers_distinct Sample.globals
           [Sample.delivery; Sample.filtered_delivery; Sample.delivery]
           Sample.world).
  constructor.
Defined.

Lemma flush_same_services pending :
  forall w w', flush pending w = inr w' -> same_services w w'.
Proof.
  induction pending as [| v rest IH]; intros w w' H.
  - inversion H; subst. repeat split.
  - apply flush_cons in H as [t H].
    apply IH in H. exact H.
Qed.

Lemma handle_same_services c w : same_services w (snd (handle c w)).
Proof.
  destruct c; cbn; try (repeat split; reflexivity).
  destruct (flush pending w) as [e | w'] eqn:E; cbn; [repeat split |].
  eapply flush_same_services; eauto.
Qed.

(** No program changes the environment or the answers of the services. *)
Lemma exec_same_services {A : Type} (p : Prog A) :
  forall w, same_services w (final (exec p w)).
Proof.
  induction p as [a | e | c k IH]; intros w; cbn; try (repeat split; reflexivity).
  destruct (handle_same_services c w) as (H1 & H2 & H3 & H4).
  destruct (IH (fst (handle c w)) (snd (handle c w))) as (K1 & K2 & K3 & K4).
  repeat split; congruence.
Qed.

Lemma Frame_resolver_get_client_id : Frame is_resolver get_client_id.
Proof.
  unfold get_client_id, get_airflow_uri. cbn [bind ret Monad_Prog]. frame.
Qed.

Lemma Frame_resolver_get_airflow_webserver_id :
  Frame is_resolver get_airflow_webserver_id.
Proof.
  unfold get_airflow_webserver_id, get_airflow_uri.
  cbn [bind ret Monad_Prog]. frame.
Qed.

Lemma resolver_no_request tr :
  forallb is_resolver tr = true -> filter is_http_request tr = [].
Proof.
  apply filter_none. intros [[] [e |]]; cbn; congruence.
Qed.

Lemma make_iap_request_one_request url client_id method kwargs w :
  (length (filter is_http_request
             (trace (exec (make_iap_request url client_id method kwargs) w)))
   <= 1)%nat.
Proof.
  destruct (issue_token w (tokens_issued w) client_id) as [e | token] eqn:Htok.
  - unfold make_iap_request. cbn. rewrite Htok. cbn. lia.
  - rewrite (exec_make_iap_request _ _ _ _ _ _ Htok). cbn. lia.
Qed.

(** The filter and the trigger send at most one request. *)
Lemma trigger_if_matching_one_request g mid attributes w :
  (length (filter is_http_request
             (trace (exec (trigger_if_matching g mid attributes) w)))
   <= 1)%nat.
Proof.
  unfold trigger_if_matching. cbn [bind ret Monad_Prog].
  rewrite exec_bind, exec_lift. unfold then_run.
  destruct (attributes_match attributes) as [e | [|]]; cbn [outcome final trace];
    try (cbn; lia).
  cbn [app].
  rewrite exec_bind. unfold then_run.
  pose proof (resolver_no_request _ (proj2 (Frame_resolver_get_client_id w)))
    as Hcid.
  destruct (outcome (exec get_client_id w)) as [cid |]; cbn [outcome final trace];
    [| rewrite Hcid; cbn; lia].
  rewrite filter_app, Hcid. cbn [app].
  set (w1 := final (exec get_client_id w)).
  rewrite exec_bind. unfold then_run.
  pose proof (resolver_no_request _
                (proj2 (Frame_resolver_get_airflow_webserver_id w1))) as Hwid.
  destruct (outcome (exec get_airflow_webserver_id w1)) as [wid |];
    cbn [outcome final trace]; [| rewrite Hwid; cbn; lia].
  rewrite filter_app, Hwid. cbn [app].
  set (w2 := final (exec get_airflow_webserver_id w1)).
  rewrite exec_bind. unfold then_run.
  pose proof (make_iap_request_one_request (webserver_url g wid) cid "POST"
                (mkKwargs (Some (IAP_TIMEOUT g)) (Some (JObj [("conf", mid)])))
                w2) as Hreq.
  destruct (outcome (exec (make_iap_request _ _ _ _) w2));
    cbn [outcome final trace exec]; [rewrite app_nil_r |]; exact Hreq.
Qed.

Lemma enabled_same_services w w' : same_services w w' -> enabled w -> enabled w'.
Proof. intros (Henv & _) (v & Hv & Hon). exists v. now rewrite Henv. Qed.

(** Deliveries of an identifier that has a row: the world stays as it is,
    nothing is inserted and nothing is sent. *)
Lemma redeliveries_change_nothing g m rest :
  forall w,
    enabled w -> engine_fault w = None ->
    rows_with m (pubsub_history w) <> [] -> PyStr.has_nul m = false ->
    Forall (fun request => exists attributes, carries request m attributes) rest ->
    fst (deliver_all g rest w) = w
    /\ filter is_insert (snd (deliver_all g rest w)) = []
    /\ filter is_http_request (snd (deliver_all g rest w)) = [].
Proof.
  induction rest as [| request rest IH]; intros w Hon He Hseen Hnul Hall;
    cbn [deliver_all].
  - repeat split; reflexivity.
  - inversion Hall as [| ? ? [attributes Hreq] Hrest]; subst.
    destruct (redelivery_already_processed g _ _ _ _ Hon Hreq He Hseen Hnul)
      as [_ Hrun].
    rewrite Hrun. cbn [final trace].
    destruct (IH w Hon He Hseen Hnul Hrest) as (Hw & Hins & Hreqs).
    destruct (deliver_all g rest w) as [w' events]. cbn [fst snd] in *.
    rewrite !filter_app, Hins, Hreqs.
    split; [exact Hw |]. split; reflexivity.
Qed.

(** X9. Any number of deliveries of one identifier, a string without
    U+0000, handled one after the other with the engine up and the lock
    free: the table ends with
    exactly one row for it, exactly one insert was made, and at most one
    request went to the DAG trigger API. *)
Theorem redeliveries_insert_once_trigger_at_most_once g request rest m w :
  enabled w -> engine_fault w = None -> lock_attempt w = None ->
  rows_with m (pubsub_history w) = [] -> PyStr.has_nul m = false ->
  Forall (fun rq => exists attributes, carries rq m attributes) (request :: rest) ->
  let done := deliver_all g (request :: rest) w in
  rows_with m (pubsub_history (fst done))
  = [mkPubSubHistory (id_seq w) m (db_now w)]
  /\ length (filter is_insert (snd done)) = 1%nat
  /\ (length (filter is_http_request (snd done)) <= 1)%nat.
Proof.
  intros Hon He Hl Hfresh Hnul Hall.
  inversion Hall as [| ? ? [attributes Hreq] Hrest]; subst.
  cbn [deliver_all].
  rewrite (first_delivery_claims _ _ _ _ _ Hon Hreq He Hl Hfresh Hnul).
  set (r := exec (trigger_if_matching g (JStr m) attributes) (insert_row m w)).
  unfold after_events. cbn [final trace].
  assert (Hrow : rows_with m (pubsub_history (final r))
                 = [mkPubSubHistory (id_seq w) m (db_now w)])
    by (apply first_delivery_row; exact Hfresh).
  assert (Hsame : same_services w (final r)).
  { destruct (exec_same_services (trigger_if_matching g (JStr m) attributes)
                (insert_row m w)) as (H1 & H2 & H3 & H4).
    repeat split; assumption. }
  assert (Hon' : enabled (final r)) by (eapply enabled_same_services; eauto).
  assert (He' : engine_fault (final r) = None)
    by (destruct Hsame as (_ & -> & _); exact He).
  assert (Hseen : rows_with m (pubsub_history (final r)) <> [])
    by (rewrite Hrow; discriminate).
  destruct (redeliveries_change_nothing g m rest (final r) Hon' He' Hseen Hnul Hrest)
    as (Hw & Hins & Hreqs).
  destruct (deliver_all g rest (final r)) as [w' events]. cbn [fst snd] in *.
  subst w'. split; [exact Hrow |].
  rewrite !filter_app, Hins, Hreqs, !app_nil_r.
  pose proof (Frame_trigger_if_matching g (JStr m) attributes (insert_row m w))
    as [_ Hdown].
  fold r in Hdown.
  rewrite (filter_none is_downstream is_insert _ downstream_not_insert Hdown).
  split; [reflexivity |].
  cbn [filter is_http_request head_events precheck_events claim_events app].
  apply trigger_if_matching_one_request.
Qed.

Lemma redeliveries_insert_once_trigger_at_most_once_sample :
  length (filter is_insert
            (snd (deliver_all Sample.globals
                    [Sample.filtered_delivery; Sample.delivery; Sample.delivery]
                    Sample.world))) = 1%nat.
Proof.
  refine (proj1 (proj2 (redeliveries_insert_once_trigger_at_most_once
                          Sample.globals Sample.filtered_delivery
                          [Sample.delivery; Sample.delivery] "abc123"
                          Sample.world sample_enabled eq_refl eq_refl eq_refl
                          eq_refl _))).
  repeat constructor.
  - exists (JObj Sample.other_attributes). exact sample_carries_filtered.
  - exists (JObj Sample.sales_attributes). exact sample_carries.
  - exists (JObj Sample.sales_attributes). exact sample_carries.
Defined.

(** ** After the claim: what a failure downstream leaves behind *)



(** X11. A first delivery of an identifier without U+0000 that passes
    the filter while the Composer environment cannot be read: the exception leaves [trigger_dag] after
    the row was committed, and neither a token is fetched nor a request
    sent. *)
Theorem unresolved_endpoint_after_claim g request m attributes w e :
  enabled w -> carries request m attributes -> PyStr.has_nul m = false ->
  engine_fault w = None ->
  lock_attempt w = None -> rows_with m (pubsub_history w) = [] ->
  attributes_match attributes = inr true ->
  airflow_uri w = inl e ->
  let r := exec (trigger_dag g request) w in
  outcome r = Raised e
  /\ trace r = (head_events request m ++ claim_events m
                ++ [(ComposerAirflowUri, Some e)])%list
  /\ rows_with m (pubsub_history (final r))
     = [mkPubSubHistory (id_seq w) m (db_now w)].
Proof.
  intros Hon Hreq Hnul He Hl Hfresh Hyes Huri. cbv zeta.
  rewrite (first_delivery_claims _ _ _ _ _ Hon Hreq He Hl Hfresh Hnul).
  assert (Hrun : exec (trigger_if_matching g (JStr m) attributes) (insert_row m w)
                 = mkRun (Raised e) (insert_row m w) [(ComposerAirflowUri, Some e)]).
  { unfold trigger_if_matching. cbn [bind ret Monad_Prog].
    rewrite exec_bind, exec_lift, Hyes. unfold then_run. cbn [outcome final trace].
    rewrite exec_bind. unfold get_client_id, get_airflow_uri. cbn.
    rewrite Huri. reflexivity. }
  rewrite Hrun. unfold after_events. cbn [outcome final trace].
  rewrite <- app_assoc.
  split; [reflexivity |]. split; [reflexivity |].
  cbn [insert_row with_table pubsub_history].
  rewrite rows_with_app, Hfresh. cbn.
  unfold String.eqb. fold String.eqb. now rewrite String.eqb_refl.
Qed.

(** X12. A first delivery of an identifier without U+0000 whose
    ["attributes"] is not an object (a string, a list, [null]): the row is inserted and committed first, and
    only then [attributes.get] raises [AttributeError]; nothing is sent
    downstream. *)
Theorem odd_attributes_raise_after_claim g request m attributes w :
  enabled w -> carries request m attributes -> PyStr.has_nul m = false ->
  engine_fault w = None ->
  lock_attempt w = None -> rows_with m (pubsub_history w) = [] ->
  (forall members, attributes <> JObj members) ->
  let r := exec (trigger_dag g request) w in
  (exists msg, outcome r = Raised (AttributeError msg))
  /\ trace r = (head_events request m ++ claim_events m)%list
  /\ rows_with m (pubsub_history (final r))
     = [mkPubSubHistory (id_seq w) m (db_now w)].
Proof.
  intros Hon Hreq Hnul He Hl Hfresh Hodd. cbv zeta.
  rewrite (first_delivery_claims _ _ _ _ _ Hon Hreq He Hl Hfresh Hnul).
  assert (Hrun : exists msg,
            exec (trigger_if_matching g (JStr m) attributes) (insert_row m w)
            = mkRun (Raised (AttributeError msg)) (insert_row m w) []).
  { unfold trigger_if_matching. cbn [bind ret Monad_Prog].
    rewrite exec_bind, exec_lift. unfold then_run.
    destruct attributes as [| b | n | s | items | members];
      try (eexists; reflexivity).
    now elim (Hodd members). }
  destruct Hrun as [msg Hrun]. rewrite Hrun.
  unfold after_events. cbn [outcome final trace]. rewrite app_nil_r.
  split; [now exists msg |]. split; [reflexivity |].
  cbn [insert_row with_table pubsub_history].
  rewrite rows_with_app, Hfresh. cbn.
  unfold String.eqb. fold String.eqb. now rewrite String.eqb_refl.
Qed.

(** ** The attribute filter *)

Lemma eq_str_iff v s : Py.eq_str v s = true <-> v = JStr s.
Proof.
  destruct v; cbn; try (split; [discriminate | intros [=]]).
  rewrite String.eqb_eq. split; [intros -> | intros [=]]; congruence.
Qed.

Lemma get_equals_iff members key s :
  PyOp.get_equals (JObj members) key s = inr true
  <-> Py.lookup members key = Some (JStr s).
Proof.
  unfold PyOp.get_equals, PyOp.get_default.
  destruct (Py.lookup members key) as [v |].
  - split.
    + intros [= H]. apply eq_str_iff in H. now subst.
    + intros [= ->]. f_equal. now apply eq_str_iff.
  - cbn. split; [intros [=] | discriminate].
Qed.

Lemma get_equals_total members key s :
  exists b, PyOp.get_equals (JObj members) key s = inr b.
Proof. unfold PyOp.get_equals, PyOp.get_default. eexists. reflexivity. Qed.

(** X13. On an attribute mapping the filter never raises, and it passes
    exactly when [data_type] is ["sales_data"], [process] is
    ["cleaning"] and [status] is ["completed"], each as a string; other
    attributes play no part. *)
Theorem attributes_match_iff members :
  (exists b, attributes_match (JObj members) = inr b)
  /\ (attributes_match (JObj members) = inr true
      <-> Py.lookup members "data_type" = Some (JStr "sales_data")
          /\ Py.lookup members "process" = Some (JStr "cleaning")
          /\ Py.lookup members "status" = Some (JStr "completed")).
Proof.
  unfold attributes_match.
  rewrite <- !get_equals_iff.
  destruct (get_equals_total members "data_type" "sales_data") as [[|] ->];
  destruct (get_equals_total members "process" "cleaning") as [[|] ->];
  destruct (get_equals_total members "status" "completed") as [[|] ->];
  (split; [eexists; reflexivity |]);
  split; try (intros (? & ? & ?)); try intros ?; try discriminate;
  repeat split; reflexivity.
Qed.

(** ** Bodies that are no envelope *)


(** ** The further properties at sample worlds *)

Lemma make_iap_request_without_token_sample :
  filter is_http_request
    (trace (exec (make_iap_request "https://example.appspot.com/api" "client"
                    "POST" (mkKwargs None None)) Scenario.world_no_token))
  = [].
Proof.
  exact (proj2 (proj2 (make_iap_request_without_token
                         "https://example.appspot.com/api" "client" "POST"
                         (mkKwargs None None) Scenario.world_no_token
                         (OtherError "DefaultCredentialsError") eq_refl))).
Defined.

Lemma make_iap_request_transport_error_sample :
  outcome (exec (make_iap_request "https://example.appspot.com/api" "client"
                   "POST" (mkKwargs None None)) Scenario.world_timeout)
  = Raised (OtherError "Timeout").
Proof.
  exact (proj1 (make_iap_request_transport_error
                  "https://example.appspot.com/api" "client" "POST"
                  (mkKwargs None None) Scenario.world_timeout "token-1"
                  (OtherError "Timeout") eq_refl eq_refl)).
Defined.

(** A body that raises inside the session: the query for an identifier
    that is a number *)
Lemma session_scope_commits_or_rolls_back_sample :
  exec (session_scope (call (QueryCount (JNum 7)))) Sample.world
  = mkRun (Raised ProgrammingError) Sample.world
      [(GetEngine, None); (QueryCount (JNum 7), Some ProgrammingError);
       (Rollback, None); (Close, None)].
Proof.
  exact (session_scope_commits_or_rolls_back (call (QueryCount (JNum 7)))
           Sample.world eq_refl).
Defined.


Lemma unresolved_endpoint_after_claim_sample :
  let r := exec (trigger_dag Sample.globals Sample.delivery)
             Scenario.world_no_composer in
  outcome r = Raised (OtherError "ConnectionError")
  /\ rows_with "abc123" (pubsub_history (final r))
     = [mkPubSubHistory 1 "abc123" 1000].
Proof.
  destruct (unresolved_endpoint_after_claim Sample.globals Sample.delivery
              "abc123" (JObj Sample.sales_attributes) Scenario.world_no_composer
              (OtherError "ConnectionError")
              sample_enabled sample_carries eq_refl eq_refl eq_refl eq_refl
              eq_refl eq_refl)
    as (Hout & _ & Hrow).
  split; [exact Hout | exact Hrow].
Defined.

Lemma null_attributes_carry :
  carries Scenario.null_attributes "abc123" JNull.
Proof.
  exists [("message", JObj [("messageId", JStr "abc123"); ("attributes", JNull)])],
         [("messageId", JStr "abc123"); ("attributes", JNull)].
  repeat split; reflexivity.
Defined.

Lemma odd_attributes_raise_after_claim_sample :
  let r := exec (trigger_dag Sample.globals Scenario.null_attributes)
             Sample.world in
  (exists msg, outcome r = Raised (AttributeError msg))
  /\ rows_with "abc123" (pubsub_history (final r))
     = [mkPubSubHistory 1 "abc123" 1000].
Proof.
  destruct (odd_attributes_raise_after_claim Sample.globals
              Scenario.null_attributes "abc123" JNull Sample.world
              sample_enabled null_attributes_carry eq_refl eq_refl eq_refl
              eq_refl ltac:(discriminate))
    as (Hout & _ & Hrow).
  split; [exact Hout | exact Hrow].
Defined.


Lemma returned_response_status_sample :
  existsb is_insert
    (trace (exec (trigger_dag Sample.globals Sample.delivery) Sample.world_locked))
  = false.
Proof.
  exact (proj2 (returned_response_status Sample.globals Sample.delivery
                  Sample.world_locked
                  (already_processed_response (JStr "abc123")) eq_refl)).
Defined.


